(** * pulumi-railway / pulumi-terraform-bridge: schema shim, naming rule,
      metadata marshalling and value conversion

    A shallow embedding of the Go sources
      - [schemashim.SchemaOnlyProvider]            (schema-only provider adapter),
      - [tfbridge.toPropertyKey], [willPluralize]   (pkg/tfpfbridge/naming.go),
      - [tfbridge.MarshalSchema], [MarshalElem], [MarshalResource] and
        their [Unmarshal] methods, [MarshalDefaultInfo], [DelegateIDField],
        and further [MarshalProvider], [MarshalSchemaInfo],
        [MarshalResourceInfo], [MarshalDataSourceInfo], [MarshalProviderInfo]
        with their [Unmarshal] methods, the getters of [ProviderInfo], the
        accessors of [ResourceInfo] and [DataSourceInfo], the token makers,
        [GetModuleMajorVersion] and the readers [StringValue],
        [ConfigStringValue], [ConfigArrayValue] and [ConfigBoolValue]
        (the provider-info file of package tfbridge),
    together with the value conversion engine, whose implementation is not
    part of the sources at hand and is modelled from its specification.

    Go features are embedded as follows.
      - A function that can [panic] returns an [outcome]: [Returned v] or
        [Panicked pv], where [pv] is the value handed to [panic].
      - A nilable pointer or interface is an [option].
      - [map[string]T] is a [gmap string T]; a nil map and an empty map are
        both the empty map (the code only ever ranges over them).
      - Types and functions of packages outside the sources (the Terraform
        plugin framework, the Pulumi SDK, the inflector library) are type
        class parameters, or small data types that follow their documented
        shape. *)

From Stdlib Require Import ZArith Bool Ascii String List Lia.
From Stdlib Require Import Floats.SpecFloat.
From Stdlib Require DecimalString DecimalN.
From stdpp Require Import base option gmap strings list fin_maps.

Open Scope string_scope.
Set Warnings "-register-all".

(** ** Go runtime: errors, panics *)

(** The values of Go's [error] interface that occur in the sources:
    [delegateIDFieldError] (declared next to [DelegateIDField]) and errors
    produced by other packages, known only by their message. *)
Inductive error : Type :=
  | delegateIDFieldError (msg providerName repoURL : string)
  | foreignError (msg : string).

(** The argument of [panic]: the sources panic with a string literal, with
    an [error], or through [contract.Assertf] with a formatted message. *)
Inductive panic_value : Type :=
  | PanicString (s : string)
  | PanicError (e : error)
  | AssertionFailed (msg : string).

Inductive outcome (A : Type) : Type :=
  | Returned (a : A)
  | Panicked (pv : panic_value).
Arguments Returned {A} a.
Arguments Panicked {A} pv.

Definition is_returned {A} (o : outcome A) : bool :=
  match o with Returned _ => true | Panicked _ => false end.

(** [strings.HasPrefix] and [strings.Contains]. *)
Fixpoint HasPrefix (s p : string) : bool :=
  match p, s with
  | EmptyString, _ => true
  | String c p', String d s' => if Ascii.eqb c d then HasPrefix s' p' else false
  | String _ _, EmptyString => false
  end.

Fixpoint Contains (s substr : string) : bool :=
  HasPrefix s substr ||
  match s with
  | EmptyString => false
  | String _ s' => Contains s' substr
  end.

(** ** package schemashim: the schema-only provider adapter *)
Module schemashim.

(** [diag.Severity] and [diag.Diagnostics.HasError] of the plugin
    framework: a diagnostics list has an error when one of its entries has
    error severity. *)
Inductive Severity : Type := SeverityInvalid | SeverityError | SeverityWarning.

Record Diagnostic : Type := mkDiagnostic {
  diagSeverity : Severity;
  diagSummary : string;
  diagDetail : string
}.

Definition isError (d : Diagnostic) : bool :=
  match diagSeverity d with SeverityError => true | _ => false end.

Definition HasError (diags : list Diagnostic) : bool := existsb isError diags.

(** The calls the adapter issues to the wrapped plugin, in order. *)
Inductive PluginCall : Type :=
  | CallSchema
  | CallGatherResources
  | CallGatherDatasources.

(** The names of the runtime operations of [shim.Provider]. *)
Inductive RuntimeOp : Type :=
  | OpValidate | OpValidateResource | OpValidateDataSource | OpConfigure
  | OpDiff | OpApply | OpRefresh | OpReadDataDiff | OpReadDataApply
  | OpMeta | OpStop | OpInitLogging | OpNewDestroyDiff | OpNewResourceConfig
  | OpIsSet.

(** The Go method name of each runtime operation. *)
Definition opName (op : RuntimeOp) : string :=
  match op with
  | OpValidate => "Validate"
  | OpValidateResource => "ValidateResource"
  | OpValidateDataSource => "ValidateDataSource"
  | OpConfigure => "Configure"
  | OpDiff => "Diff"
  | OpApply => "Apply"
  | OpRefresh => "Refresh"
  | OpReadDataDiff => "ReadDataDiff"
  | OpReadDataApply => "ReadDataApply"
  | OpMeta => "Meta"
  | OpStop => "Stop"
  | OpInitLogging => "InitLogging"
  | OpNewDestroyDiff => "NewDestroyDiff"
  | OpNewResourceConfig => "NewResourceConfig"
  | OpIsSet => "IsSet"
  end.

(** Opaque types of the packages [context], [shim] and [pfprovider], and of
    the schema views built by [pfutils] and this package's schema-map file. *)
Class ExternalTypes : Type := {
  GoContext : Type;
  PfSchema : Type;
  SchemaRequest : Type;
  ResourceConfig : Type;
  InstanceState : Type;
  InstanceDiff : Type;
  DiffOptions : Type;
  TimeoutOptions : Type;
  Any : Type;
  ProviderSchema : Type;
  SchemaMap : Type;
  Resources : Type;
  DataSources : Type
}.

(** [pfprovider.SchemaResponse]. *)
Record SchemaResponse `{ExternalTypes} : Type := mkSchemaResponse {
  Schema_ : PfSchema;
  Diagnostics : list Diagnostic
}.
Arguments mkSchemaResponse {_} _ _.

(** [pfprovider.Provider]: its [Schema] method fills in the response it is
    handed. *)
Record PfProvider `{ExternalTypes} : Type := mkPfProvider {
  tfSchema : GoContext -> SchemaRequest -> SchemaResponse -> SchemaResponse
}.
Arguments mkPfProvider {_} _.

(** The zero values [pfprovider.SchemaRequest{}] and
    [&pfprovider.SchemaResponse{}], [context.TODO()], and the functions of
    [pfutils] and of this package's schema-map file. *)
Class ExternalFunctions `{ExternalTypes} : Type := {
  emptySchemaRequest : SchemaRequest;
  zeroPfSchema : PfSchema;
  context_TODO : GoContext;
  FromProviderSchema : PfSchema -> ProviderSchema;
  newSchemaMap : ProviderSchema -> SchemaMap;
  GatherResources : GoContext -> PfProvider -> Resources * option error;
  GatherDatasources : GoContext -> PfProvider -> DataSources * option error
}.

Section Adapter.
Context `{ExternalFunctions}.

Record SchemaOnlyProvider : Type := mkSchemaOnlyProvider {
  ctx : GoContext;
  tf : PfProvider
}.

Definition PfProvider_ (p : SchemaOnlyProvider) : PfProvider := tf p.

Inductive schemaOnlyResourceMap : Type :=
  mkSchemaOnlyResourceMap (resources : Resources).
Inductive schemaOnlyDataSourceMap : Type :=
  mkSchemaOnlyDataSourceMap (dataSources : DataSources).

(** A computation that records the plugin calls it makes. *)
Definition traced (A : Type) : Type := list PluginCall * outcome A.

Definition Schema (p : SchemaOnlyProvider) : traced SchemaMap :=
  let ctx := ctx p in
  let schemaResp := mkSchemaResponse zeroPfSchema [] in
  let schemaResp := tfSchema (tf p) ctx emptySchemaRequest schemaResp in
  ([CallSchema],
   if HasError (Diagnostics schemaResp)
   then Panicked (PanicString "Schema() returned error diags")
   else Returned (newSchemaMap (FromProviderSchema (Schema_ schemaResp)))).

Definition ResourcesMap (p : SchemaOnlyProvider) : traced schemaOnlyResourceMap :=
  let '(resources, err) := GatherResources context_TODO (tf p) in
  ([CallGatherResources],
   match err with
   | Some e => Panicked (PanicError e)
   | None => Returned (mkSchemaOnlyResourceMap resources)
   end).

Definition DataSourcesMap (p : SchemaOnlyProvider) : traced schemaOnlyDataSourceMap :=
  let '(dataSources, err) := GatherDatasources context_TODO (tf p) in
  ([CallGatherDatasources],
   match err with
   | Some e => Panicked (PanicError e)
   | None => Returned (mkSchemaOnlyDataSourceMap dataSources)
   end).

(** The runtime operations. Every one ignores its receiver and arguments. *)
Definition Validate (p : SchemaOnlyProvider) (_ : GoContext) (_ : ResourceConfig)
  : outcome (list string * list error) :=
  Panicked (PanicString "schemaOnlyProvider does not implement runtime operation Validate").

Definition ValidateResource (p : SchemaOnlyProvider)
    (_ : GoContext) (_ : string) (_ : ResourceConfig)
  : outcome (list string * list error) :=
  Panicked (PanicString "schemaOnlyProvider does not implement runtime operation ValidateResource").

Definition ValidateDataSource (p : SchemaOnlyProvider)
    (_ : GoContext) (_ : string) (_ : ResourceConfig)
  : outcome (list string * list error) :=
  Panicked (PanicString "schemaOnlyProvider does not implement runtime operation ValidateDataSource").

Definition Configure (p : SchemaOnlyProvider) (ctx : GoContext) (c : ResourceConfig)
  : outcome (option error) :=
  Panicked (PanicString "schemaOnlyProvider does not implement runtime operation Configure").

Definition Diff (p : SchemaOnlyProvider)
    (_ : GoContext) (_ : string) (_ : InstanceState) (_ : ResourceConfig) (_ : DiffOptions)
  : outcome (InstanceDiff * option error) :=
  Panicked (PanicString "schemaOnlyProvider does not implement runtime operation Diff").

Definition Apply (p : SchemaOnlyProvider)
    (_ : GoContext) (_ : string) (_ : InstanceState) (_ : InstanceDiff)
  : outcome (InstanceState * option error) :=
  Panicked (PanicString "schemaOnlyProvider does not implement runtime operation Apply").

Definition Refresh (p : SchemaOnlyProvider)
    (_ : GoContext) (_ : string) (_ : InstanceState) (_ : ResourceConfig)
  : outcome (InstanceState * option error) :=
  Panicked (PanicString "schemaOnlyProvider does not implement runtime operation Refresh").

Definition ReadDataDiff (p : SchemaOnlyProvider)
    (_ : GoContext) (_ : string) (_ : ResourceConfig)
  : outcome (InstanceDiff * option error) :=
  Panicked (PanicString "schemaOnlyProvider does not implement runtime operation ReadDataDiff").

Definition ReadDataApply (p : SchemaOnlyProvider)
    (_ : GoContext) (_ : string) (_ : InstanceDiff)
  : outcome (InstanceState * option error) :=
  Panicked (PanicString "schemaOnlyProvider does not implement runtime operation ReadDataApply").

Definition Meta (p : SchemaOnlyProvider) (_ : GoContext) : outcome Any :=
  Panicked (PanicString "schemaOnlyProvider does not implement runtime operation Meta").

Definition Stop (p : SchemaOnlyProvider) (_ : GoContext) : outcome (option error) :=
  Panicked (PanicString "schemaOnlyProvider does not implement runtime operation Stop").

Definition InitLogging (p : SchemaOnlyProvider) (_ : GoContext) : outcome unit :=
  Panicked (PanicString "schemaOnlyProvider does not implement runtime operation InitLogging").

Definition NewDestroyDiff (p : SchemaOnlyProvider)
    (_ : GoContext) (_ : string) (_ : TimeoutOptions)
  : outcome InstanceDiff :=
  Panicked (PanicString "schemaOnlyProvider does not implement runtime operation NewDestroyDiff").

Definition NewResourceConfig (p : SchemaOnlyProvider)
    (_ : GoContext) (_ : gmap string Any)
  : outcome ResourceConfig :=
  Panicked (PanicString "schemaOnlyProvider does not implement runtime operation ResourceConfig").

Definition IsSet (p : SchemaOnlyProvider) (_ : GoContext) (_ : Any)
  : outcome (list Any * bool) :=
  Panicked (PanicString "schemaOnlyProvider does not implement runtime operation IsSet").

(** A call of a runtime operation with its arguments, indexed by the
    operation's result type. *)
Inductive RuntimeCall : Type -> Type :=
  | DoValidate (c : GoContext) (cfg : ResourceConfig)
      : RuntimeCall (list string * list error)
  | DoValidateResource (c : GoContext) (t : string) (cfg : ResourceConfig)
      : RuntimeCall (list string * list error)
  | DoValidateDataSource (c : GoContext) (t : string) (cfg : ResourceConfig)
      : RuntimeCall (list string * list error)
  | DoConfigure (c : GoContext) (cfg : ResourceConfig)
      : RuntimeCall (option error)
  | DoDiff (c : GoContext) (t : string) (s : InstanceState)
           (cfg : ResourceConfig) (o : DiffOptions)
      : RuntimeCall (InstanceDiff * option error)
  | DoApply (c : GoContext) (t : string) (s : InstanceState) (d : InstanceDiff)
      : RuntimeCall (InstanceState * option error)
  | DoRefresh (c : GoContext) (t : string) (s : InstanceState) (cfg : ResourceConfig)
      : RuntimeCall (InstanceState * option error)
  | DoReadDataDiff (c : GoContext) (t : string) (cfg : ResourceConfig)
      : RuntimeCall (InstanceDiff * option error)
  | DoReadDataApply (c : GoContext) (t : string) (d : InstanceDiff)
      : RuntimeCall (InstanceState * option error)
  | DoMeta (c : GoContext) : RuntimeCall Any
  | DoStop (c : GoContext) : RuntimeCall (option error)
  | DoInitLogging (c : GoContext) : RuntimeCall unit
  | DoNewDestroyDiff (c : GoContext) (t : string) (o : TimeoutOptions)
      : RuntimeCall InstanceDiff
  | DoNewResourceConfig (c : GoContext) (m : gmap string Any)
      : RuntimeCall ResourceConfig
  | DoIsSet (c : GoContext) (v : Any) : RuntimeCall (list Any * bool).

Definition opOf {R} (call : RuntimeCall R) : RuntimeOp :=
  match call with
  | DoValidate _ _ => OpValidate
  | DoValidateResource _ _ _ => OpValidateResource
  | DoValidateDataSource _ _ _ => OpValidateDataSource
  | DoConfigure _ _ => OpConfigure
  | DoDiff _ _ _ _ _ => OpDiff
  | DoApply _ _ _ _ => OpApply
  | DoRefresh _ _ _ _ => OpRefresh
  | DoReadDataDiff _ _ _ => OpReadDataDiff
  | DoReadDataApply _ _ _ => OpReadDataApply
  | DoMeta _ => OpMeta
  | DoStop _ => OpStop
  | DoInitLogging _ => OpInitLogging
  | DoNewDestroyDiff _ _ _ => OpNewDestroyDiff
  | DoNewResourceConfig _ _ => OpNewResourceConfig
  | DoIsSet _ _ => OpIsSet
  end.

(** Method dispatch on a [SchemaOnlyProvider]. *)
Definition invoke {R} (p : SchemaOnlyProvider) (call : RuntimeCall R) : outcome R :=
  match call in RuntimeCall R return outcome R with
  | DoValidate c cfg => Validate p c cfg
  | DoValidateResource c t cfg => ValidateResource p c t cfg
  | DoValidateDataSource c t cfg => ValidateDataSource p c t cfg
  | DoConfigure c cfg => Configure p c cfg
  | DoDiff c t s cfg o => Diff p c t s cfg o
  | DoApply c t s d => Apply p c t s d
  | DoRefresh c t s cfg => Refresh p c t s cfg
  | DoReadDataDiff c t cfg => ReadDataDiff p c t cfg
  | DoReadDataApply c t d => ReadDataApply p c t d
  | DoMeta c => Meta p c
  | DoStop c => Stop p c
  | DoInitLogging c => InitLogging p c
  | DoNewDestroyDiff c t o => NewDestroyDiff p c t o
  | DoNewResourceConfig c m => NewResourceConfig p c m
  | DoIsSet c v => IsSet p c v
  end.

(** The message a runtime operation panics with, when it panics with a
    string. *)
Definition panic_message {R} (o : outcome R) : option string :=
  match o with
  | Panicked (PanicString s) => Some s
  | _ => None
  end.

End Adapter.

(** *** A sample plugin *)

(** A plugin framework instance for examples: every opaque type is [nat]
    or [unit]; the sample plugin reports the diagnostics it is built with
    and the schema [n]. *)
Definition sampleTypes : ExternalTypes := {|
  GoContext := unit; PfSchema := nat; SchemaRequest := unit;
  ResourceConfig := unit; InstanceState := unit; InstanceDiff := unit;
  DiffOptions := unit; TimeoutOptions := unit; Any := unit;
  ProviderSchema := nat; SchemaMap := nat;
  Resources := list string; DataSources := list string
|}.

Definition samplePlugin (n : nat) (diags : list Diagnostic) : @PfProvider sampleTypes :=
  mkPfProvider (fun _ _ resp => mkSchemaResponse (H := sampleTypes) n (Diagnostics resp ++ diags)).

(** [GatherResources] of the sample succeeds; [GatherDatasources] fails. *)
Definition sampleFunctions : @ExternalFunctions sampleTypes := {|
  emptySchemaRequest := tt : @SchemaRequest sampleTypes;
  zeroPfSchema := 0%nat : @PfSchema sampleTypes;
  context_TODO := tt : @GoContext sampleTypes;
  FromProviderSchema := (fun n => n) : @PfSchema sampleTypes -> @ProviderSchema sampleTypes;
  newSchemaMap := (fun n => S n) : @ProviderSchema sampleTypes -> @SchemaMap sampleTypes;
  GatherResources := fun _ _ => (["res_a"], None);
  GatherDatasources := fun _ _ => ([], Some (foreignError "duplicate data source"))
|}.

Definition sampleProvider (n : nat) (diags : list Diagnostic)
  : @SchemaOnlyProvider sampleTypes :=
  mkSchemaOnlyProvider (H := sampleTypes) tt (samplePlugin n diags).

End schemashim.

(** ** package tftypes: type descriptors *)
Module tftypes.

(** Modelled from the spec: the declaration of [tftypes.Type] belongs to
    the Terraform plugin library and is not among the sources. Following the
    data model of the specification, a type descriptor is one of Bool, Number,
    String, List of an element type, or Object with an ordered mapping from
    field names to type descriptors. *)
Inductive Type_ : Type :=
  | Bool
  | Number
  | String
  | List (ElementType : Type_)
  | Object (AttributeTypes : list (string * Type_)).

(** [typ.Is(tftypes.List{})]: whether [typ] is a list type, whatever its
    element type. *)
Definition Is_List (typ : Type_) : bool :=
  match typ with
  | List _ => true
  | _ => false
  end.

End tftypes.

(** ** package tfbridge (pkg/tfpfbridge/naming.go): the naming rule *)
Module naming.

(** The two functions of the inflector library that the naming rule calls. *)
Class Inflector : Type := {
  Pluralize : string -> string;
  Singularize : string -> string
}.

Section NamingRule.
Context `{Inflector}.

Definition willPluralize (name : string) (typ : tftypes.Type_) : bool :=
  if tftypes.Is_List typ then
    let plu := Pluralize name in
    let distinct := negb (String.eqb plu name) in
    let valid := String.eqb (Singularize plu) name in
    valid && distinct
  else false.

(** [resource.PropertyKey] is a string type. *)
Definition toPropertyKey (name : string) (typ : tftypes.Type_) : string :=
  if willPluralize name typ then Pluralize name else name.

(** The condition under which the rule uses the plural form. *)
Definition pluralizes (s : string) (t : tftypes.Type_) : Prop :=
  tftypes.Is_List t = true /\ Singularize (Pluralize s) = s /\ Pluralize s <> s.
End NamingRule.

(** *** Sample inflectors

    Two small rule-based inflectors used to exercise the naming rule. Both
    leave a word that ends in "s" unchanged when pluralizing and append "s"
    otherwise, and drop a final "s" when singularizing. The second one adds
    one irregular pair in the style of inflection rule tables: a final "man"
    becomes "men" and back. *)
Definition rev_string (s : string) : string :=
  string_of_list_ascii (List.rev (list_ascii_of_string s)).

(** [strings.HasSuffix] and [strings.TrimSuffix]. *)
Definition HasSuffix (s suffix : string) : bool :=
  HasPrefix (rev_string s) (rev_string suffix).

Definition TrimSuffix (s suffix : string) : string :=
  if HasSuffix s suffix
  then String.substring 0 (String.length s - String.length suffix) s
  else s.

Definition regularInflector : Inflector := {|
  Pluralize := fun w => if HasSuffix w "s" then w else w +:+ "s";
  Singularize := fun w => TrimSuffix w "s"
|}.

Definition irregularInflector : Inflector := {|
  Pluralize := fun w =>
    if HasSuffix w "man" then TrimSuffix w "man" +:+ "men"
    else if HasSuffix w "s" then w
    else w +:+ "s";
  Singularize := fun w =>
    if HasSuffix w "men" then TrimSuffix w "men" +:+ "man"
    else TrimSuffix w "s"
|}.

End naming.


(** ** package resource (Pulumi SDK): property values *)
Module resource.

(** A [float64], as an IEEE 754 binary64 datum. *)
Definition float64 : Type := spec_float.

(** Modelled from the spec: the declaration of [resource.PropertyValue]
    belongs to the Pulumi SDK and is not among the sources. Following the
    data model of the specification, a property value is Null, Bool, Number,
    String, Array, Object, or one of the wrappers Computed, Secret and
    Output (with its known and secret flags and its dependencies). *)
Inductive PropertyValue : Type :=
  | Null
  | Bool (b : bool)
  | Number (f : float64)
  | String (s : string)
  | Array (elements : list PropertyValue)
  | Object (fields : gmap string PropertyValue)
  | Computed (Element : PropertyValue)
  | Secret (Element : PropertyValue)
  | Output (Element : PropertyValue) (Known Secret_ : bool)
           (Dependencies : gset string).

(** [resource.PropertyMap] is [map[PropertyKey]PropertyValue], and
    [resource.PropertyKey] and [resource.ID] are string types. *)
Abbreviation PropertyMap := (gmap string PropertyValue).

Definition IsComputed (v : PropertyValue) : bool :=
  match v with Computed _ => true | _ => false end.
Definition IsOutput (v : PropertyValue) : bool :=
  match v with Output _ _ _ _ => true | _ => false end.
Definition IsSecret (v : PropertyValue) : bool :=
  match v with Secret _ => true | _ => false end.
Definition IsString (v : PropertyValue) : bool :=
  match v with String _ => true | _ => false end.

(** The accessors are used by the sources only behind the matching [Is]
    test; on other values they return the zero value here. *)
Definition OutputKnown (v : PropertyValue) : bool :=
  match v with Output _ k _ _ => k | _ => false end.
Definition OutputSecret (v : PropertyValue) : bool :=
  match v with Output _ _ s _ => s | _ => false end.
Definition OutputElement (v : PropertyValue) : PropertyValue :=
  match v with Output e _ _ _ => e | _ => Null end.
Definition SecretElement (v : PropertyValue) : PropertyValue :=
  match v with Secret e => e | _ => Null end.
Definition StringValue (v : PropertyValue) : string :=
  match v with String s => s | _ => "" end.

End resource.

(** ** package shim (tfshim): schemas as the bridge sees them *)
Module shim.

(** [shim.ValueType]. *)
Inductive ValueType : Type :=
  | TypeInvalid | TypeBool | TypeInt | TypeFloat | TypeString
  | TypeList | TypeMap | TypeSet.

(** What the accessors of a [shim.Schema] return. [Elem()] is documented
    to yield nil, a [shim.Schema] or a [shim.Resource]; [Description] and
    [Sensitive] stand for the accessors that marshalling does not read.
    A [shim.Resource] is modelled by its [Schema()], which may be nil. *)
Inductive Schema : Type :=
  | mkSchema (Type_ : ValueType) (Optional Required Computed ForceNew : bool)
             (Elem : SchemaElem) (MaxItems MinItems : Z) (Deprecated : string)
             (Description : string) (Sensitive : bool)
with SchemaElem : Type :=
  | ElemNil
  | ElemSchema (s : Schema)
  | ElemResource (r : Resource)
with Resource : Type :=
  | mkResource (Schema_ : option (gmap string Schema)).

Definition Type_ (s : Schema) : ValueType :=
  match s with mkSchema t _ _ _ _ _ _ _ _ _ _ => t end.
Definition Optional (s : Schema) : bool :=
  match s with mkSchema _ o _ _ _ _ _ _ _ _ _ => o end.
Definition Required (s : Schema) : bool :=
  match s with mkSchema _ _ r _ _ _ _ _ _ _ _ => r end.
Definition Computed (s : Schema) : bool :=
  match s with mkSchema _ _ _ c _ _ _ _ _ _ _ => c end.
Definition ForceNew (s : Schema) : bool :=
  match s with mkSchema _ _ _ _ f _ _ _ _ _ _ => f end.
Definition Elem (s : Schema) : SchemaElem :=
  match s with mkSchema _ _ _ _ _ e _ _ _ _ _ => e end.
Definition MaxItems (s : Schema) : Z :=
  match s with mkSchema _ _ _ _ _ _ mx _ _ _ _ => mx end.
Definition MinItems (s : Schema) : Z :=
  match s with mkSchema _ _ _ _ _ _ _ mn _ _ _ => mn end.
Definition Deprecated (s : Schema) : string :=
  match s with mkSchema _ _ _ _ _ _ _ _ d _ _ => d end.
Definition Description (s : Schema) : string :=
  match s with mkSchema _ _ _ _ _ _ _ _ _ d _ => d end.
Definition Sensitive (s : Schema) : bool :=
  match s with mkSchema _ _ _ _ _ _ _ _ _ _ b => b end.

Definition ResourceSchema (r : Resource) : option (gmap string Schema) :=
  match r with mkResource m => m end.

(** The attributes of a resource: none when its schema map is nil. *)
Definition attributes (r : Resource) : gmap string Schema :=
  match ResourceSchema r with Some m => m | None => ∅ end.

(** The nesting depth of a schema, the measure for induction. *)
Fixpoint height (s : Schema) : nat :=
  match s with
  | mkSchema _ _ _ _ _ e _ _ _ _ _ => S (heightElem e)
  end
with heightElem (e : SchemaElem) : nat :=
  match e with
  | ElemNil => 0
  | ElemSchema s => height s
  | ElemResource r => heightResource r
  end
with heightResource (r : Resource) : nat :=
  match r with
  | mkResource None => 0
  | mkResource (Some m) => map_fold (fun _ s acc => Nat.max (height s) acc) 0%nat m
  end.

(** Agreement of two schemas on the persisted fields: type, the four
    flags, item bounds, deprecation message, and recursively the element,
    be it an element schema or a nested resource (compared attribute by
    attribute). *)
Inductive agree : Schema -> Schema -> Prop :=
  | agree_schema t o r c f e e' mx mn d desc sens desc' sens' :
      agreeElem e e' ->
      agree (mkSchema t o r c f e mx mn d desc sens)
            (mkSchema t o r c f e' mx mn d desc' sens')
with agreeElem : SchemaElem -> SchemaElem -> Prop :=
  | agree_nil : agreeElem ElemNil ElemNil
  | agree_elem_schema s s' : agree s s' -> agreeElem (ElemSchema s) (ElemSchema s')
  | agree_elem_resource r r' :
      (forall k : string, option_Forall2 agree (attributes r !! k) (attributes r' !! k)) ->
      agreeElem (ElemResource r) (ElemResource r').

End shim.

(** ** package tfbridge: marshallable schemas, default infos, identity fields *)
Module tfbridge.
Import resource.

(** [MarshallableSchema], [MarshallableElem] and [MarshallableResource]
    (a [map[string]*MarshallableSchema]). A nil [*MarshallableElem] is
    [None]; so is a nil [Schema] pointer inside an element. *)
Inductive MarshallableSchema : Type :=
  | mkMarshallableSchema (Type_ : shim.ValueType)
      (Optional Required Computed ForceNew : bool)
      (Elem : option MarshallableElem) (MaxItems MinItems : Z)
      (DeprecationMessage : string)
with MarshallableElem : Type :=
  | mkMarshallableElem (Schema_ : option MarshallableSchema)
                       (Resource : gmap string MarshallableSchema).

Abbreviation MarshallableResource := (gmap string MarshallableSchema).

Fixpoint MarshalSchema (s : shim.Schema) : MarshallableSchema :=
  match s with
  | shim.mkSchema t o r c f e mx mn d _ _ =>
      mkMarshallableSchema t o r c f (MarshalElem e) mx mn d
  end
with MarshalElem (e : shim.SchemaElem) : option MarshallableElem :=
  match e with
  | shim.ElemSchema v => Some (mkMarshallableElem (Some (MarshalSchema v)) ∅)
  | shim.ElemResource v => Some (mkMarshallableElem None (MarshalResource v))
  | shim.ElemNil => None (* the default branch: its assertion [e == nil] holds *)
  end
with MarshalResource (r : shim.Resource) : MarshallableResource :=
  match r with
  | shim.mkResource None => ∅
  | shim.mkResource (Some m) => MarshalSchema <$> m
  end.

(** The [Unmarshal] methods. [(&schema.Schema{...}).Shim()] leaves every
    field that is not listed at its zero value. *)
Fixpoint MarshallableSchema_Unmarshal (m : MarshallableSchema) : shim.Schema :=
  match m with
  | mkMarshallableSchema t o r c f e mx mn d =>
      shim.mkSchema t o r c f
        (match e with
         | None => shim.ElemNil
         | Some e' => MarshallableElem_Unmarshal' e'
         end)
        mx mn d "" false
  end
with MarshallableElem_Unmarshal' (m : MarshallableElem) : shim.SchemaElem :=
  match m with
  | mkMarshallableElem (Some s) _ => shim.ElemSchema (MarshallableSchema_Unmarshal s)
  | mkMarshallableElem None r =>
      shim.ElemResource (shim.mkResource (Some (MarshallableSchema_Unmarshal <$> r)))
  end.


Definition MarshallableElem_Unmarshal (m : option MarshallableElem) : shim.SchemaElem :=
  match m with
  | None => shim.ElemNil
  | Some m' => MarshallableElem_Unmarshal' m'
  end.

(** Parts of the Go runtime and the Pulumi SDK that the definitions below
    use without looking inside: [interface{}] values, the logger that the
    host stores in a context under [logging.CtxKey], and
    [PropertyValue.TypeString]. *)
Class External : Type := {
  Any : Type;
  HostLogger : Type;
  TypeString : PropertyValue -> string
}.

(** A [context.Context], reduced to what [GetLogger] reads from it:
    [ctx.Value(logging.CtxKey)], nil when no logger is attached. *)
Record context_Context `{External} : Type := mkContext {
  ctxLogger : option HostLogger
}.
Arguments mkContext {_} _.

Record ComputeDefaultOptions `{External} : Type := mkComputeDefaultOptions {
  URN : string;
  Properties : PropertyMap;
  PriorState : PropertyMap;
  PriorValue : PropertyValue;
  Seed : list Byte.byte
}.

Record PulumiResource : Type := mkPulumiResource {
  resURN : string;
  resProperties : PropertyMap;
  resSeed : list Byte.byte
}.

Record DefaultInfo `{External} : Type := mkDefaultInfo {
  AutoNamed : bool;
  Config : string;
  From : option (option PulumiResource -> outcome (Any * option error));
  ComputeDefault :
    option (context_Context -> ComputeDefaultOptions -> outcome (Any * option error));
  Value : Any;
  EnvVars : list string
}.
Arguments mkDefaultInfo {_} _ _ _ _ _ _.

Record MarshallableDefaultInfo `{External} : Type := mkMarshallableDefaultInfo {
  mAutoNamed : bool;
  IsFunc : bool;
  mValue : Any;
  mEnvVars : list string
}.
Arguments mkMarshallableDefaultInfo {_} _ _ _ _.

(** [x != nil] for a nilable value. *)
Definition notNil {A : Type} (x : option A) : bool :=
  match x with Some _ => true | None => false end.

Inductive LogLevel : Type := LevelDebug | LevelInfo | LevelWarn | LevelError.

(** One message handed to the host logger. *)
Record LogEntry `{External} : Type := mkLogEntry {
  entryLogger : HostLogger;
  entryLevel : LogLevel;
  entryMsg : string
}.
Arguments mkLogEntry {_} _ _ _.

Section Info.
Context `{External}.

Definition MarshalDefaultInfo (d : option DefaultInfo) : option MarshallableDefaultInfo :=
  match d with
  | None => None
  | Some d =>
      Some (mkMarshallableDefaultInfo
              (AutoNamed d)
              (notNil (From d) || notNil (ComputeDefault d))
              (Value d)
              (EnvVars d))
  end.

(** [Config] and [From] are not set and keep their zero values. *)
Definition MarshallableDefaultInfo_Unmarshal (m : option MarshallableDefaultInfo)
  : option DefaultInfo :=
  match m with
  | None => None
  | Some m =>
      Some (mkDefaultInfo
              (mAutoNamed m)
              ""
              None
              (if IsFunc m
               then Some (fun (_ : context_Context) (_ : ComputeDefaultOptions) =>
                            Panicked (PanicString
                              "transforms cannot be run on unmarshaled DefaultInfo values"))
               else None)
              (mValue m)
              (mEnvVars m))
  end.

(** The [Logger] returned by [newLoggerAdapter]. *)
Inductive Logger : Type := newLoggerAdapter (logger : HostLogger).

Definition Warn (l : Logger) (msg : string) : list LogEntry :=
  match l with newLoggerAdapter h => [mkLogEntry h LevelWarn msg] end.

Definition GetLogger (ctx : context_Context) : outcome Logger :=
  match ctxLogger ctx with
  | None =>
      Panicked (AssertionFailed
        "Cannot call GetLogger on a context that is not equipped with a Logger")
  | Some logger => Returned (newLoggerAdapter logger)
  end.

(** A computation that logs: the entries written, then how it ended. *)
Definition logged (A : Type) : Type := list LogEntry * outcome A.

(** [ComputeID]: the returned pair is [(resource.ID, error)]. *)
Definition ComputeID : Type :=
  context_Context -> PropertyMap -> logged (string * option error).

(** [delegateIDFieldError.Error]. *)
Definition Error (e : error) : string :=
  match e with
  | delegateIDFieldError msg providerName repoURL =>
      msg +:+ ". This is an error in " +:+ providerName +:+
      " resource provider, please report at " +:+ repoURL
  | foreignError msg => msg
  end.

Definition DelegateIDField (field providerName repoURL : string) : ComputeID :=
  fun ctx state =>
    let err (msg : string) : error :=
      delegateIDFieldError msg providerName repoURL in
    match state !! field with
    | None =>
        ([], Returned ("", Some (err ("Could not find required property '" +:+ field
                                      +:+ "' in state"))))
    | Some fieldValue =>
        if negb (negb (IsComputed fieldValue) &&
                 (negb (IsOutput fieldValue) || OutputKnown fieldValue))
        then ([], Panicked (AssertionFailed
                ("ComputeID is only called during when preview=false, so we should never need to "
                 +:+ "deal with computed properties")))
        else
          let finish (log : list LogEntry) (fieldValue : PropertyValue)
            : logged (string * option error) :=
            if negb (IsString fieldValue)
            then (log, Returned ("", Some (err ("Expected '" +:+ field
                    +:+ "' property to be a string, found " +:+ TypeString fieldValue))))
            else (log, Returned (StringValue fieldValue, None)) in
          if IsSecret fieldValue || (IsOutput fieldValue && OutputSecret fieldValue)
          then
            let msg := "Setting non-secret resource ID as '" +:+ field
                       +:+ "' (which is secret)" in
            match GetLogger ctx with
            | Panicked pv => ([], Panicked pv)
            | Returned logger =>
                let log := Warn logger msg in
                let fieldValue :=
                  if IsSecret fieldValue
                  then SecretElement fieldValue
                  else OutputElement fieldValue in
                finish log fieldValue
            end
          else finish [] fieldValue
    end.

(** The value that [DelegateIDField] inspects after removing one secret
    wrapper. *)
Definition unwrapped (v : PropertyValue) : PropertyValue :=
  match v with
  | Secret e => e
  | Output e _ true _ => e
  | _ => v
  end.

(** Whether the assertion of [DelegateIDField] holds for a value: it is
    neither computed nor an unknown output. *)
Definition settled (v : PropertyValue) : Prop :=
  IsComputed v = false /\ (IsOutput v = true -> OutputKnown v = true).

(** Whether a value is marked secret for [DelegateIDField]. *)
Definition marked_secret (v : PropertyValue) : bool :=
  IsSecret v || (IsOutput v && OutputSecret v).

Definition missing_property (field providerName repoURL : string) : error :=
  delegateIDFieldError
    ("Could not find required property '" +:+ field +:+ "' in state")
    providerName repoURL.


Definition secret_warning (field : string) : string :=
  "Setting non-secret resource ID as '" +:+ field +:+ "' (which is secret)".
End Info.

(** *** Samples *)

(** A list-typed attribute whose element is a nested resource with two
    attributes, one of them with a string element schema. *)
Definition sampleSchema : shim.Schema :=
  shim.mkSchema shim.TypeList true false false true
    (shim.ElemResource (shim.mkResource (Some
       (<["name" := shim.mkSchema shim.TypeString false true false false
                      shim.ElemNil 0 0 "" "the name" true]>
        (<["tags" := shim.mkSchema shim.TypeSet true false true false
                      (shim.ElemSchema
                         (shim.mkSchema shim.TypeString false false false false
                            shim.ElemNil 0 0 "" "a tag" false))
                      10 1 "use labels" "" false]> ∅)))))
    1 0 "" "nested block" false.

(** A sample instance of the opaque parts: [interface{}] values are
    integers, host loggers are named by strings, and [TypeString] names the
    outermost constructor. *)
Definition sampleExternal : External := {|
  Any := Z;
  HostLogger := string;
  TypeString := fun v =>
    match v with
    | Null => "null" | Bool _ => "bool" | Number _ => "number"
    | String _ => "string" | Array _ => "[]" | Object _ => "object"
    | Computed _ => "output<T>" | Secret _ => "secret<T>"
    | Output _ _ _ _ => "output<T>"
    end
|}.

Definition sampleDefault : @DefaultInfo sampleExternal :=
  mkDefaultInfo (H := sampleExternal) true "region"
    (Some (fun _ => Returned (5%Z : @Any sampleExternal, None)))
    None
    (7%Z : @Any sampleExternal)
    ["AWS_REGION"].

Definition plainDefault : @DefaultInfo sampleExternal :=
  mkDefaultInfo (H := sampleExternal) false "" None None
    (7%Z : @Any sampleExternal) [].

Definition sampleContext : @context_Context sampleExternal :=
  mkContext (H := sampleExternal) (Some "host").


End tfbridge.


(** ** The value conversion engine *)
Module convert.
Import resource.

(** *** Numbers

    Modelled from the spec: Typed numbers are arbitrary-precision binary
    floating-point numbers, [mant * 2^exp] with unbounded integer mantissa
    and exponent; a Property number is a 64-bit floating-point number. *)
Record BigFloat : Type := mkBigFloat { mant : Z; exp : Z }.

(** Equality of the numbers denoted by two Typed numbers: both mantissas
    are brought to the smaller exponent. *)
Definition same_value (x y : BigFloat) : Prop :=
  let e := Z.min (exp x) (exp y) in
  (mant x * 2 ^ (exp x - e) = mant y * 2 ^ (exp y - e))%Z.

Definition same_valueb (x y : BigFloat) : bool :=
  let e := Z.min (exp x) (exp y) in
  (mant x * 2 ^ (exp x - e) =? mant y * 2 ^ (exp y - e))%Z.

(** The integer [n] as a Typed number. *)
Definition ofZ (n : Z) : BigFloat := mkBigFloat n 0.

(** Modelled from the spec: conversion of a Typed number to a Property
    number preserves its value up to the 64-bit floating-point
    representation: the number is rounded to the nearest binary64 number,
    ties to even, with gradual underflow and overflow to infinity. *)
Definition toFloat64 (x : BigFloat) : float64 :=
  binary_normalize 53 1024 (mant x) (exp x) false.

(** The Typed number with the value of a finite binary64 number; an
    infinity or a NaN has none. *)
Definition ofFloat64 (f : float64) : option BigFloat :=
  match f with
  | S754_zero _ => Some (mkBigFloat 0 0)
  | S754_finite s m e => Some (mkBigFloat (cond_Zopp s (Zpos m)) e)
  | S754_infinity _ => None
  | S754_nan => None
  end.



(** *** Typed values

    Modelled from the spec: a Typed value carries its type descriptor and is
    Null, Unknown, or a Known primitive or composite. *)
Inductive Value : Type :=
  | mkValue (typ : tftypes.Type_) (value : Payload)
with Payload : Type :=
  | IsNull
  | IsUnknown
  | KnownBool (b : bool)
  | KnownNumber (n : BigFloat)
  | KnownString (s : string)
  | KnownList (elements : list Value)
  | KnownObject (fields : gmap string Value).

Definition typ (v : Value) : tftypes.Type_ :=
  match v with mkValue t _ => t end.
Definition payload (v : Value) : Payload :=
  match v with mkValue _ p => p end.

(** Whether a payload is a Known value of the shape of a descriptor (at
    the top level). *)
Definition has_shape (D : tftypes.Type_) (p : Payload) : bool :=
  match D, p with
  | tftypes.Bool, KnownBool _ => true
  | tftypes.Number, KnownNumber _ => true
  | tftypes.String, KnownString _ => true
  | tftypes.List _, KnownList _ => true
  | tftypes.Object _, KnownObject _ => true
  | _, _ => false
  end.

(** A conversion mismatch, with the type descriptor and the offending
    value. *)
Inductive ConversionError : Type :=
  | TypedMismatch (D : tftypes.Type_) (v : Value)
  | PropertyMismatch (D : tftypes.Type_) (p : PropertyValue).

Inductive result (A : Type) : Type :=
  | Ok (a : A)
  | Err (e : ConversionError).
Arguments Ok {A} a.
Arguments Err {A} e.

#[global] Instance result_ret : MRet result := fun A a => Ok a.
#[global] Instance result_bind : MBind result := fun A B k r =>
  match r with Ok a => k a | Err e => Err e end.

(** The zero-shaped Property value of a descriptor: the placeholder
    wrapped by Computed. *)
Definition zeroValue (D : tftypes.Type_) : PropertyValue :=
  match D with
  | tftypes.Bool => Bool false
  | tftypes.Number => Number (S754_zero false)
  | tftypes.String => String ""
  | tftypes.List _ => Array []
  | tftypes.Object _ => Object ∅
  end.

(** Modelled from the spec: [ConvertTFValueToProperty] is not among the
    sources (its test file is). By descriptor case: Null goes to Null;
    Unknown to Computed around the zero-shaped value; Bool and String are
    kept; a Number is converted to 64-bit floating point; a List is
    converted element by element in order; an Object field by field under
    the declared field types. A Known value of another shape is a
    conversion error. *)
Fixpoint ConvertTFValueToProperty (D : tftypes.Type_) (v : Value) {struct D}
  : result PropertyValue :=
  match payload v with
  | IsNull => Ok Null
  | IsUnknown => Ok (Computed (zeroValue D))
  | known =>
      match D, known with
      | tftypes.Bool, KnownBool b => Ok (Bool b)
      | tftypes.Number, KnownNumber n => Ok (Number (toFloat64 n))
      | tftypes.String, KnownString s => Ok (String s)
      | tftypes.List E, KnownList vs =>
          ps ← mapM (ConvertTFValueToProperty E) vs; Ok (Array ps)
      | tftypes.Object attrs, KnownObject fs =>
          if bool_decide (dom fs ⊆ list_to_set (attrs.*1))
          then
            m ← (fix fields (attrs : list (string * tftypes.Type_))
                    : result (gmap string PropertyValue) :=
                    match attrs with
                    | [] => Ok ∅
                    | (k, ty) :: rest =>
                        match fs !! k with
                        | None => Err (TypedMismatch D v)
                        | Some fv =>
                            p ← ConvertTFValueToProperty ty fv;
                            m ← fields rest;
                            Ok (<[k := p]> m)
                        end
                    end) attrs;
            Ok (Object m)
          else Err (TypedMismatch D v)
      | _, _ => Err (TypedMismatch D v)
      end
  end.

(** The ambient secret flag: a successful conversion is wrapped in Secret
    after the structural conversion. *)
Definition ConvertTFValueToPropertySecret (secret : bool) (D : tftypes.Type_)
    (v : Value) : result PropertyValue :=
  p ← ConvertTFValueToProperty D v;
  Ok (if secret then Secret p else p).

(** Secret wrappers are removed before a Property value is converted. *)
Fixpoint unwrapSecret (p : PropertyValue) : PropertyValue :=
  match p with
  | Secret e => unwrapSecret e
  | _ => p
  end.

(** Modelled from the spec: [ConvertPropertyToTFValue] is not among the
    sources. After removing Secret wrappers: Null goes to Typed Null;
    Computed to Typed Unknown, whatever it wraps; Bool and String are kept;
    a finite Number becomes the Typed number of the same value; an Array is
    converted element by element; an Object field by field, a declared field
    that is absent becoming Null. Any other combination is a conversion
    error. *)
Fixpoint ConvertPropertyToTFValue (D : tftypes.Type_) (p : PropertyValue) {struct D}
  : result Value :=
  match unwrapSecret p with
  | Null => Ok (mkValue D IsNull)
  | Computed _ => Ok (mkValue D IsUnknown)
  | q =>
      match D, q with
      | tftypes.Bool, Bool b => Ok (mkValue D (KnownBool b))
      | tftypes.Number, Number f =>
          match ofFloat64 f with
          | Some n => Ok (mkValue D (KnownNumber n))
          | None => Err (PropertyMismatch D p)
          end
      | tftypes.String, String s => Ok (mkValue D (KnownString s))
      | tftypes.List E, Array ps =>
          vs ← mapM (ConvertPropertyToTFValue E) ps;
          Ok (mkValue D (KnownList vs))
      | tftypes.Object attrs, Object m =>
          if bool_decide (dom m ⊆ list_to_set (attrs.*1))
          then
            fs ← (fix fields (attrs : list (string * tftypes.Type_))
                     : result (gmap string Value) :=
                     match attrs with
                     | [] => Ok ∅
                     | (k, ty) :: rest =>
                         fv ← match m !! k with
                               | None => Ok (mkValue ty IsNull)
                               | Some fp => ConvertPropertyToTFValue ty fp
                               end;
                         fs ← fields rest;
                         Ok (<[k := fv]> fs)
                     end) attrs;
            Ok (mkValue D (KnownObject fs))
          else Err (PropertyMismatch D p)
      | _, _ => Err (PropertyMismatch D p)
      end
  end.



(** The cases of the turnaround test: descriptor, Typed value, Property
    value. 3.12 is the binary64 number 7025615418697974 * 2^-51. *)
Definition f64_3_12 : float64 := S754_finite false 7025615418697974 (-51).
Definition f64_42 : float64 := S754_finite false 5910974510923776 (-47).

End convert.


(** ** package tfbridge, continued: serialized schemas read back *)
Module snapshot.
Import tfbridge.

(** The nesting depth of a marshallable schema, the measure for induction. *)
Fixpoint depth (m : MarshallableSchema) : nat :=
  match m with
  | mkMarshallableSchema _ _ _ _ _ e _ _ _ =>
      S (match e with
         | None => 0
         | Some e' => depthElem e'
         end)
  end
with depthElem (e : MarshallableElem) : nat :=
  match e with
  | mkMarshallableElem s r =>
      Nat.max (match s with Some s' => depth s' | None => 0 end)
              (map_fold (fun _ s acc => Nat.max (depth s) acc) 0%nat r)
  end.

(** The marshallable schemas in which every element holds either a schema
    (and then no resource attributes) or resource attributes only, at every
    level of nesting. *)
Inductive canonical : MarshallableSchema -> Prop :=
  | canonical_leaf t o r c f mx mn d :
      canonical (mkMarshallableSchema t o r c f None mx mn d)
  | canonical_schema t o r c f s mx mn d :
      canonical s ->
      canonical (mkMarshallableSchema t o r c f
                   (Some (mkMarshallableElem (Some s) ∅)) mx mn d)
  | canonical_resource t o r c f res mx mn d :
      (forall (k : string) (s : MarshallableSchema), res !! k = Some s -> canonical s) ->
      canonical (mkMarshallableSchema t o r c f
                   (Some (mkMarshallableElem None res)) mx mn d).

End snapshot.

(** ** package tfbridge, continued: provider metadata and its marshalling *)
Module metadata.
Import resource tfbridge.

(** Types that the metadata structs mention and that are declared in other
    files of the package or in the Pulumi SDK, and the Go function types
    whose values the code below stores and never calls. *)
Class Declared : Type := {
  AssetTranslation : Type;
  Transformer : Type;
  PreStateUpgradeHook : Type;
  PreCheckCallback : Type;
  PropertyTransform : Type;
  ComplexTypeSpec : Type;
  ResourceSpec : Type;
  FunctionSpec : Type;
  HclExampler : Type;
  JavaScriptInfo : Type;
  PythonInfo : Type;
  GolangInfo : Type;
  CSharpInfo : Type;
  JavaInfo : Type;
  PreConfigureCallback : Type;
  PreConfigureCallbackWithLogger : Type;
  MetadataInfo : Type;
  MakeEditRules : Type;
  AlternativeNamesFunc : Type;
  SkipExamples : Type;
  SchemaPostProcessor : Type;
  MuxProvider : Type
}.

(** What the Go runtime raises when a nil pointer is dereferenced
    ([r.Fields] with [r == nil]): a [runtime.Error]. *)
Definition nilDereference : panic_value :=
  PanicError (foreignError "runtime error: invalid memory address or nil pointer dereference").

(** A [for k, v := range m] loop that stores [f(v)] under [k] in a fresh
    map and stops at the first call that panics. Go leaves the order of the
    visits open; the loops below can panic with one value only, so that the
    order does not show in the result. *)
Definition rangeStore {A B : Type} (f : A -> outcome B) (m : gmap string A)
  : outcome (gmap string B) :=
  map_fold
    (fun k v acc =>
       match acc with
       | Panicked pv => Panicked pv
       | Returned out =>
           match f v with
           | Returned b => Returned (<[k := b]> out)
           | Panicked pv => Panicked pv
           end
       end)
    (Returned ∅) m.

(** [DocInfo] and [AliasInfo]. *)
Record DocInfo : Type := mkDocInfo {
  DocInfo_Source : string;
  DocInfo_Markdown : list Byte.byte;
  DocInfo_IncludeAttributesFrom : string;
  DocInfo_IncludeArgumentsFrom : string;
  DocInfo_IncludeAttributesFromArguments : string;
  DocInfo_ImportDetails : string;
  DocInfo_ReplaceExamplesSection : bool;
  DocInfo_AllowMissing : bool
}.

Record AliasInfo : Type := mkAliasInfo {
  AliasInfo_Name : option string;
  AliasInfo_Type : option string;
  AliasInfo_Project : option string
}.

Section Metadata.
Context `{External} `{Declared}.

(** [SchemaInfo]. [tokens.Type] is a string type; a [*bool] is an
    [option bool]; the entries of [Fields] are pointers and may be nil. *)
Inductive SchemaInfo : Type := mkSchemaInfo {
  SchemaInfo_Name : string;
  SchemaInfo_CSharpName : string;
  SchemaInfo_Type : string;
  SchemaInfo_AltTypes : list string;
  SchemaInfo_NestedType : string;
  SchemaInfo_Transform : option Transformer;
  SchemaInfo_Elem : option SchemaInfo;
  SchemaInfo_Fields : gmap string (option SchemaInfo);
  SchemaInfo_Asset : option AssetTranslation;
  SchemaInfo_Default : option DefaultInfo;
  SchemaInfo_Stable : option bool;
  SchemaInfo_MaxItemsOne : option bool;
  SchemaInfo_SuppressEmptyMapElements : option bool;
  SchemaInfo_MarkAsComputedOnly : option bool;
  SchemaInfo_MarkAsOptional : option bool;
  SchemaInfo_DeprecationMessage : string;
  SchemaInfo_ForceNew : option bool;
  SchemaInfo_ForcesProviderReplace : option bool;
  SchemaInfo_Removed : bool;
  SchemaInfo_Omit : bool;
  SchemaInfo_Secret : option bool
}.

Inductive MarshallableSchemaInfo : Type := mkMarshallableSchemaInfo {
  MarshallableSchemaInfo_Name : string;
  MarshallableSchemaInfo_CSharpName : string;
  MarshallableSchemaInfo_Type : string;
  MarshallableSchemaInfo_AltTypes : list string;
  MarshallableSchemaInfo_Elem : option MarshallableSchemaInfo;
  MarshallableSchemaInfo_Fields : gmap string (option MarshallableSchemaInfo);
  MarshallableSchemaInfo_Asset : option AssetTranslation;
  MarshallableSchemaInfo_Default : option MarshallableDefaultInfo;
  MarshallableSchemaInfo_MaxItemsOne : option bool;
  MarshallableSchemaInfo_Deprecated : string;
  MarshallableSchemaInfo_ForceNew : option bool;
  MarshallableSchemaInfo_Secret : option bool
}.

(** [HasDefault]. *)
Definition HasDefault (info : SchemaInfo) : bool := notNil (SchemaInfo_Default info).

(** [MarshalSchemaInfo] on a non-nil pointer, and then on any pointer. *)
Fixpoint MarshalSchemaInfo' (s : SchemaInfo) : MarshallableSchemaInfo :=
  match s with
  | mkSchemaInfo name csharp typ alts _ _ elem flds asset def _ maxItemsOne _ _ _
                 depr forceNew _ _ _ secret =>
      let fields := option_map MarshalSchemaInfo' <$> flds in
      mkMarshallableSchemaInfo name csharp typ alts
        (option_map MarshalSchemaInfo' elem)
        fields asset (MarshalDefaultInfo def) maxItemsOne depr forceNew secret
  end.

Definition MarshalSchemaInfo (s : option SchemaInfo) : option MarshallableSchemaInfo :=
  option_map MarshalSchemaInfo' s.

(** [MarshallableSchemaInfo.Unmarshal]; the fields it does not list keep
    their zero values. *)
Fixpoint MarshallableSchemaInfo_Unmarshal' (m : MarshallableSchemaInfo) : SchemaInfo :=
  match m with
  | mkMarshallableSchemaInfo name csharp typ alts elem flds asset def maxItemsOne
                             depr forceNew secret =>
      let fields := option_map MarshallableSchemaInfo_Unmarshal' <$> flds in
      mkSchemaInfo name csharp typ alts "" None
        (option_map MarshallableSchemaInfo_Unmarshal' elem)
        fields asset (MarshallableDefaultInfo_Unmarshal def)
        None maxItemsOne None None None depr forceNew None false false secret
  end.

Definition MarshallableSchemaInfo_Unmarshal (m : option MarshallableSchemaInfo)
  : option SchemaInfo :=
  option_map MarshallableSchemaInfo_Unmarshal' m.

(** The nesting depth of a marshallable schema info. *)
Fixpoint infoDepth (m : MarshallableSchemaInfo) : nat :=
  match m with
  | mkMarshallableSchemaInfo _ _ _ _ elem flds _ _ _ _ _ _ =>
      S (Nat.max
           (match elem with Some e => infoDepth e | None => 0 end)
           (map_fold
              (fun _ v acc =>
                 Nat.max (match v with Some e => infoDepth e | None => 0 end) acc)
              0%nat flds))
  end.


(** [ConfigInfo]; its [Schema] is an interface value and may be nil. *)
Record ConfigInfo : Type := mkConfigInfo {
  ConfigInfo_Info : option SchemaInfo;
  ConfigInfo_Schema : option shim.Schema
}.

(** [DocRuleInfo]; both fields are function values and may be nil. *)
Record DocRuleInfo : Type := mkDocRuleInfo {
  DocRuleInfo_EditRules : option MakeEditRules;
  DocRuleInfo_AlternativeNames : option AlternativeNamesFunc
}.

(** [ResourceInfo]; [tokens.Type] is a string type. *)
Record ResourceInfo : Type := mkResourceInfo {
  ResourceInfo_Tok : string;
  ResourceInfo_Fields : gmap string (option SchemaInfo);
  ResourceInfo_IDFields : list string;
  ResourceInfo_UniqueNameFields : list string;
  ResourceInfo_Docs : option DocInfo;
  ResourceInfo_DeleteBeforeReplace : bool;
  ResourceInfo_Aliases : list AliasInfo;
  ResourceInfo_DeprecationMessage : string;
  ResourceInfo_CSharpName : string;
  ResourceInfo_PreStateUpgradeHook : option PreStateUpgradeHook;
  ResourceInfo_PreCheckCallback : option PreCheckCallback;
  ResourceInfo_TransformOutputs : option PropertyTransform;
  ResourceInfo_TransformFromState : option PropertyTransform;
  ResourceInfo_ComputeID : option ComputeID
}.

Record DataSourceInfo : Type := mkDataSourceInfo {
  DataSourceInfo_Tok : string;
  DataSourceInfo_Fields : gmap string (option SchemaInfo);
  DataSourceInfo_Docs : option DocInfo;
  DataSourceInfo_DeprecationMessage : string
}.









(** [MarshallableResourceInfo] and [MarshallableDataSourceInfo]. *)
Record MarshallableResourceInfo : Type := mkMarshallableResourceInfo {
  MarshallableResourceInfo_Tok : string;
  MarshallableResourceInfo_CSharpName : string;
  MarshallableResourceInfo_Fields : gmap string (option MarshallableSchemaInfo);
  MarshallableResourceInfo_IDFields : list string
}.

Record MarshallableDataSourceInfo : Type := mkMarshallableDataSourceInfo {
  MarshallableDataSourceInfo_Tok : string;
  MarshallableDataSourceInfo_Fields : gmap string (option MarshallableSchemaInfo)
}.

(** [MarshalResourceInfo] reads [r.Fields] without testing [r]; it returns
    a non-nil pointer. *)
Definition MarshalResourceInfo (r : option ResourceInfo)
  : outcome MarshallableResourceInfo :=
  match r with
  | None => Panicked nilDereference
  | Some r =>
      let fields := MarshalSchemaInfo <$> ResourceInfo_Fields r in
      Returned (mkMarshallableResourceInfo
                  (ResourceInfo_Tok r) (ResourceInfo_CSharpName r) fields
                  (ResourceInfo_IDFields r))
  end.


Definition MarshalDataSourceInfo (d : option DataSourceInfo)
  : outcome MarshallableDataSourceInfo :=
  match d with
  | None => Panicked nilDereference
  | Some d =>
      let fields := MarshalSchemaInfo <$> DataSourceInfo_Fields d in
      Returned (mkMarshallableDataSourceInfo (DataSourceInfo_Tok d) fields)
  end.



(** What [MarshalProvider] observes of a [shim.Provider]: the entries that
    the [Range] methods of its [Schema()], [ResourcesMap()] and
    [DataSourcesMap()] visit. Each of the three calls may panic, as those
    of the schema-only provider do. *)
Record Provider : Type := mkProvider {
  Provider_Schema : outcome (gmap string shim.Schema);
  Provider_ResourcesMap : outcome (gmap string shim.Resource);
  Provider_DataSourcesMap : outcome (gmap string shim.Resource)
}.

Record MarshallableProvider : Type := mkMarshallableProvider {
  MarshallableProvider_Schema : gmap string MarshallableSchema;
  MarshallableProvider_Resources : gmap string MarshallableResource;
  MarshallableProvider_DataSources : gmap string MarshallableResource
}.

(** [MarshalProvider]; a nil provider marshals to nil. *)
Definition MarshalProvider (p : option Provider) : outcome (option MarshallableProvider) :=
  match p with
  | None => Returned None
  | Some p =>
      match Provider_Schema p with
      | Panicked pv => Panicked pv
      | Returned schemaMap =>
          let config := MarshalSchema <$> schemaMap in
          match Provider_ResourcesMap p with
          | Panicked pv => Panicked pv
          | Returned resourcesMap =>
              let resources := MarshalResource <$> resourcesMap in
              match Provider_DataSourcesMap p with
              | Panicked pv => Panicked pv
              | Returned dataSourcesMap =>
                  let dataSources := MarshalResource <$> dataSourcesMap in
                  Returned (Some (mkMarshallableProvider config resources dataSources))
              end
          end
      end
  end.


(** [ProviderInfo]. [TFProviderLicense] is a string type. *)
Record ProviderInfo : Type := mkProviderInfo {
  ProviderInfo_P : option Provider;
  ProviderInfo_Name : string;
  ProviderInfo_ResourcePrefix : string;
  ProviderInfo_GitHubOrg : string;
  ProviderInfo_GitHubHost : string;
  ProviderInfo_Description : string;
  ProviderInfo_Keywords : list string;
  ProviderInfo_License : string;
  ProviderInfo_LogoURL : string;
  ProviderInfo_DisplayName : string;
  ProviderInfo_Publisher : string;
  ProviderInfo_Homepage : string;
  ProviderInfo_Repository : string;
  ProviderInfo_Version : string;
  ProviderInfo_Config : gmap string (option SchemaInfo);
  ProviderInfo_ExtraConfig : gmap string (option ConfigInfo);
  ProviderInfo_Resources : gmap string (option ResourceInfo);
  ProviderInfo_DataSources : gmap string (option DataSourceInfo);
  ProviderInfo_ExtraTypes : gmap string ComplexTypeSpec;
  ProviderInfo_ExtraResources : gmap string ResourceSpec;
  ProviderInfo_ExtraFunctions : gmap string FunctionSpec;
  ProviderInfo_ExtraResourceHclExamples : list HclExampler;
  ProviderInfo_ExtraFunctionHclExamples : list HclExampler;
  ProviderInfo_IgnoreMappings : list string;
  ProviderInfo_PluginDownloadURL : string;
  ProviderInfo_JavaScript : option JavaScriptInfo;
  ProviderInfo_Python : option PythonInfo;
  ProviderInfo_Golang : option GolangInfo;
  ProviderInfo_CSharp : option CSharpInfo;
  ProviderInfo_Java : option JavaInfo;
  ProviderInfo_TFProviderVersion : string;
  ProviderInfo_TFProviderLicense : option string;
  ProviderInfo_TFProviderModuleVersion : string;
  ProviderInfo_PreConfigureCallback : option PreConfigureCallback;
  ProviderInfo_PreConfigureCallbackWithLogger : option PreConfigureCallbackWithLogger;
  ProviderInfo_MetadataInfo : option MetadataInfo;
  ProviderInfo_DocRules : option DocRuleInfo;
  ProviderInfo_UpstreamRepoPath : string;
  ProviderInfo_SkipExamples : option SkipExamples;
  ProviderInfo_SchemaPostProcessor : option SchemaPostProcessor;
  ProviderInfo_MuxWith : list MuxProvider;
  ProviderInfo_SkipValidateProviderConfigForPluginFramework : bool;
  ProviderInfo_XSkipDetailedDiffForChanges : bool;
  ProviderInfo_GenerateRuntimeMetadata : bool
}.

Definition MPL20LicenseType : string := "MPL 2.0".
Definition MITLicenseType : string := "MIT".
Definition Apache20LicenseType : string := "Apache 2.0".
Definition UnlicensedLicenseType : string := "UNLICENSED".


Definition GetResourcePrefix (info : ProviderInfo) : string :=
  if String.eqb (ProviderInfo_ResourcePrefix info) ""
  then ProviderInfo_Name info
  else ProviderInfo_ResourcePrefix info.

Definition GetGitHubOrg (info : ProviderInfo) : string :=
  if String.eqb (ProviderInfo_GitHubOrg info) ""
  then "terraform-providers"
  else ProviderInfo_GitHubOrg info.

Definition GetGitHubHost (info : ProviderInfo) : string :=
  if String.eqb (ProviderInfo_GitHubHost info) ""
  then "github.com"
  else ProviderInfo_GitHubHost info.

Definition GetTFProviderLicense (info : ProviderInfo) : string :=
  match ProviderInfo_TFProviderLicense info with
  | None => MPL20LicenseType
  | Some license => license
  end.

Definition GetProviderModuleVersion (info : ProviderInfo) : string :=
  if String.eqb (ProviderInfo_TFProviderModuleVersion info) ""
  then ""
  else ProviderInfo_TFProviderModuleVersion info.

Record MarshallableProviderInfo : Type := mkMarshallableProviderInfo {
  MarshallableProviderInfo_Provider : option MarshallableProvider;
  MarshallableProviderInfo_Name : string;
  MarshallableProviderInfo_Version : string;
  MarshallableProviderInfo_Config : gmap string (option MarshallableSchemaInfo);
  MarshallableProviderInfo_Resources : gmap string (option MarshallableResourceInfo);
  MarshallableProviderInfo_DataSources : gmap string (option MarshallableDataSourceInfo);
  MarshallableProviderInfo_TFProviderVersion : string
}.

(** [MarshalProviderInfo]: the three loops, then the struct literal, whose
    first field calls [MarshalProvider]. The result pointers stored in the
    maps are never nil. *)
Definition MarshalProviderInfo (p : option ProviderInfo)
  : outcome MarshallableProviderInfo :=
  match p with
  | None => Panicked nilDereference
  | Some p =>
      let config := MarshalSchemaInfo <$> ProviderInfo_Config p in
      match rangeStore MarshalResourceInfo (ProviderInfo_Resources p) with
      | Panicked pv => Panicked pv
      | Returned resources =>
          match rangeStore MarshalDataSourceInfo (ProviderInfo_DataSources p) with
          | Panicked pv => Panicked pv
          | Returned dataSources =>
              match MarshalProvider (ProviderInfo_P p) with
              | Panicked pv => Panicked pv
              | Returned provider =>
                  Returned (mkMarshallableProviderInfo
                              provider
                              (ProviderInfo_Name p)
                              (ProviderInfo_Version p)
                              config
                              (Some <$> resources)
                              (Some <$> dataSources)
                              (ProviderInfo_TFProviderVersion p))
              end
          end
      end
  end.



(** A map of pointers none of which is nil. *)
Definition noNilEntry {A : Type} (m : gmap string (option A)) : Prop :=
  forall k v, m !! k = Some v -> v <> None.

(** What a call that returned has returned. *)
Definition returned {A : Type} (o : outcome A) : option A :=
  match o with Returned a => Some a | Panicked _ => None end.

End Metadata.
End metadata.

(** ** package tfbridge, continued: helper functions *)
Module helpers.

(** [strings.Split] for a separator of one byte, as it is called here. *)
Fixpoint Split (s : string) (sep : ascii) : list string :=
  match s with
  | EmptyString => [""]
  | String c s' =>
      if Ascii.eqb c sep then "" :: Split s' sep
      else match Split s' sep with
           | first :: others => String c first :: others
           | [] => [String c ""]
           end
  end.

(** The number of occurrences of a byte in a string. *)
Fixpoint countByte (s : string) (b : ascii) : nat :=
  match s with
  | EmptyString => 0
  | String c s' => (if Ascii.eqb c b then 1 else 0) + countByte s' b
  end.

Import resource tfbridge.

(** More of [resource.PropertyValue]: the tests and accessors for arrays
    and booleans; the accessors are used behind the matching test. *)
Definition IsArray (v : PropertyValue) : bool :=
  match v with Array _ => true | _ => false end.
Definition IsBool (v : PropertyValue) : bool :=
  match v with Bool _ => true | _ => false end.
Definition ArrayValue (v : PropertyValue) : list PropertyValue :=
  match v with Array elements => elements | _ => [] end.
Definition BoolValue (v : PropertyValue) : bool :=
  match v with Bool b => b | _ => false end.

(** The error value of a failed type assertion, which the Go runtime
    builds from the dynamic type of the value. *)
Class GoRuntime : Type := {
  typeAssertionError : PropertyValue -> error
}.

(** [PropertyValue.StringValue] where no [IsString] test precedes it: the
    type assertion [v.V.(string)] panics on a value that is not a string. *)
Definition assertStringValue `{GoRuntime} (v : PropertyValue) : outcome string :=
  match v with
  | String s => Returned s
  | _ => Panicked (PanicError (typeAssertionError v))
  end.

(** The two-result forms [v, ok := m[k]] and [os.LookupEnv]; without an
    entry the first result is the zero value. The process environment is a
    finite map from names to values. *)
Definition Environ : Type := gmap string string.

Definition index (vars : PropertyMap) (prop : string) : PropertyValue * bool :=
  match vars !! prop with
  | Some val => (val, true)
  | None => (Null, false)
  end.

Definition LookupEnv (environ : Environ) (key : string) : string * bool :=
  match environ !! key with
  | Some val => (val, true)
  | None => ("", false)
  end.

(** [StringValue]. *)
Definition StringValue (vars : PropertyMap) (prop : string) : string :=
  let '(val, ok) := index vars prop in
  if ok && IsString val then resource.StringValue val else "".

(** [ConfigStringValue]: the loop over [envs], then the function. *)
Fixpoint ConfigStringValue_envs (environ : Environ) (envs : list string) : string :=
  match envs with
  | [] => ""
  | env :: envs' =>
      let '(val, ok) := LookupEnv environ env in
      if ok then val else ConfigStringValue_envs environ envs'
  end.

Definition ConfigStringValue (environ : Environ) (vars : PropertyMap) (prop : string)
    (envs : list string) : string :=
  let '(val, ok) := index vars prop in
  if ok && IsString val then resource.StringValue val
  else ConfigStringValue_envs environ envs.

(** [ConfigArrayValue]: the loop that appends the elements' strings to
    [vals], the loop over [envs], then the function. A nil slice is [[]]. *)
Fixpoint ConfigArrayValue_elements `{GoRuntime} (vals : list string)
    (elements : list PropertyValue) : outcome (list string) :=
  match elements with
  | [] => Returned vals
  | v :: elements' =>
      match assertStringValue v with
      | Panicked pv => Panicked pv
      | Returned s => ConfigArrayValue_elements (vals ++ [s]) elements'
      end
  end.

Fixpoint ConfigArrayValue_envs (environ : Environ) (vals : list string)
    (envs : list string) : list string :=
  match envs with
  | [] => vals
  | env :: envs' =>
      let '(val, ok) := LookupEnv environ env in
      if ok then Split val ";" else ConfigArrayValue_envs environ vals envs'
  end.

Definition ConfigArrayValue `{GoRuntime} (environ : Environ) (vars : PropertyMap)
    (prop : string) (envs : list string) : outcome (list string) :=
  let '(val, ok) := index vars prop in
  let vals : list string := [] in
  if ok && IsArray val then ConfigArrayValue_elements vals (ArrayValue val)
  else Returned (ConfigArrayValue_envs environ vals envs).

(** [ConfigBoolValue]. *)
Fixpoint ConfigBoolValue_envs (environ : Environ) (envs : list string) : bool :=
  match envs with
  | [] => false
  | env :: envs' =>
      let '(val, ok) := LookupEnv environ env in
      if ok && String.eqb val "true" then true
      else ConfigBoolValue_envs environ envs'
  end.

Definition ConfigBoolValue (environ : Environ) (vars : PropertyMap) (prop : string)
    (envs : list string) : bool :=
  let '(val, ok) := index vars prop in
  if ok && IsBool val then BoolValue val
  else ConfigBoolValue_envs environ envs.

(** [MakeMember] and [MakeType]; [tokens.ModuleMember] and [tokens.Type]
    are string types. *)
Definition MakeMember (pkg mod_ mem : string) : string :=
  pkg +:+ ":" +:+ mod_ +:+ ":" +:+ mem.

Definition MakeType (pkg mod_ typ : string) : string :=
  MakeMember pkg mod_ typ.

(** The part of the semantic-version library that [GetModuleMajorVersion]
    uses: [semver.ParseTolerant] and the [Major] field, a [uint64]. *)
Class Semver : Type := {
  Version : Type;
  Major : Version -> N;
  ParseTolerant : string -> Version * option error
}.

(** [fmt.Sprintf("%d", n)] for an unsigned integer. *)
Definition formatDecimal (n : N) : string :=
  DecimalString.NilEmpty.string_of_uint (N.to_uint n).

Definition GetModuleMajorVersion `{Semver} (version : string) : outcome string :=
  let majorVersion := "" in
  let '(sver, err) := ParseTolerant version in
  match err with
  | Some e => Panicked (PanicError e)
  | None =>
      Returned (if (1 <? Major sver)%N
                then "v" +:+ formatDecimal (Major sver)
                else majorVersion)
  end.

(** [delegateIDFieldError.Is]: the receiver is given by its three fields;
    [err == target] compares them. *)
Definition delegateIDFieldError_Is (msg providerName repoURL : string) (target : error)
  : bool :=
  match target with
  | delegateIDFieldError msg' providerName' repoURL' =>
      String.eqb msg msg' && String.eqb providerName providerName'
      && String.eqb repoURL repoURL'
  | foreignError _ => false
  end.

End helpers.

(** ** package tfbridge, continued: standard tokens *)
Module standardtokens.

(** The functions of the SDK's [tokens] package that the token makers
    call, and [string(unicode.ToLower(rune(b)))] for a byte [b]. The token
    constructors carry assertions of their own and may panic. *)
Class Tokens : Type := {
  IsName : string -> bool;
  IsQName : string -> bool;
  NewPackageToken : string -> outcome string;
  NewModuleToken : string -> string -> outcome string;
  NewTypeToken : string -> string -> outcome string;
  NewModuleMemberToken : string -> string -> outcome string;
  lowerFirst : ascii -> string
}.

(** What the Go runtime raises for [member[0]] on an empty string. *)
Definition indexOutOfRange : panic_value :=
  PanicError (foreignError "runtime error: index out of range [0] with length 0").

Section Makers.
Context `{Tokens}.

(** [makeModule]: [member[0]] is evaluated first, then the two
    assertions, each before the constructor that uses the checked name. *)
Definition makeModule (pkg mod_ member : string) : outcome string :=
  match member with
  | EmptyString => Panicked indexOutOfRange
  | String first rest =>
      let mod_ := mod_ +:+ "/" +:+ lowerFirst first +:+ rest in
      if negb (IsQName pkg)
      then Panicked (AssertionFailed ("invalid pkg name: '" +:+ pkg +:+ "'"))
      else
        match NewPackageToken pkg with
        | Panicked pv => Panicked pv
        | Returned pkgT =>
            if negb (IsQName mod_)
            then Panicked (AssertionFailed ("invalid module name: '" +:+ mod_ +:+ "'"))
            else NewModuleToken pkgT mod_
        end
  end.

Definition MakeDataSource (pkg mod_ name : string) : outcome string :=
  if negb (IsName name)
  then Panicked (AssertionFailed ("invalid datasource name: '" +:+ name +:+ "'"))
  else
    match makeModule pkg mod_ name with
    | Panicked pv => Panicked pv
    | Returned modT => NewModuleMemberToken modT name
    end.

Definition MakeResource (pkg mod_ res : string) : outcome string :=
  if negb (IsName res)
  then Panicked (AssertionFailed ("invalid resource name: '" +:+ res +:+ "'"))
  else
    match makeModule pkg mod_ res with
    | Panicked pv => Panicked pv
    | Returned modT => NewTypeToken modT res
    end.
End Makers.

End standardtokens.

(** ** Sample instances of the parameters *)
Module samples.
Import resource tfbridge metadata helpers standardtokens.

(** The declared types are all the unit type. *)
Definition sampleDeclared : Declared := {|
  AssetTranslation := unit;
  Transformer := unit;
  PreStateUpgradeHook := unit;
  PreCheckCallback := unit;
  PropertyTransform := unit;
  ComplexTypeSpec := unit;
  ResourceSpec := unit;
  FunctionSpec := unit;
  HclExampler := unit;
  JavaScriptInfo := unit;
  PythonInfo := unit;
  GolangInfo := unit;
  CSharpInfo := unit;
  JavaInfo := unit;
  PreConfigureCallback := unit;
  PreConfigureCallbackWithLogger := unit;
  MetadataInfo := unit;
  MakeEditRules := unit;
  AlternativeNamesFunc := unit;
  SkipExamples := unit;
  SchemaPostProcessor := unit;
  MuxProvider := unit
|}.

Definition sampleRuntime : GoRuntime := {|
  typeAssertionError := fun v =>
    foreignError ("interface conversion: interface {} is "
                  +:+ TypeString (External := sampleExternal) v +:+ ", not string")
|}.

(** A version is its major number, written in decimal. *)
Definition sampleSemver : Semver := {|
  Version := N;
  Major := fun v => v;
  ParseTolerant := fun s =>
    match DecimalString.NilEmpty.uint_of_string s with
    | Some d => (N.of_uint d, None)
    | None => (0%N, Some (foreignError "Invalid character(s) found in major number"))
    end
|}.

(** Names are non-empty strings without a colon; a first byte in [A-Z] is
    lowered, any other byte is kept. *)
Definition sampleTokens : Tokens := {|
  IsName := fun s => negb (String.eqb s "") && negb (Contains s ":") && negb (Contains s "/");
  IsQName := fun s => negb (String.eqb s "") && negb (Contains s ":");
  NewPackageToken := fun nm => Returned nm;
  NewModuleToken := fun pkg nm => Returned (pkg +:+ ":" +:+ nm);
  NewTypeToken := fun mod_ nm => Returned (mod_ +:+ ":" +:+ nm);
  NewModuleMemberToken := fun mod_ nm => Returned (mod_ +:+ ":" +:+ nm);
  lowerFirst := fun b =>
    let n := nat_of_ascii b in
    String.String (if (65 <=? n)%nat && (n <=? 90)%nat then ascii_of_nat (n + 32) else b) ""
|}.

(** A serialized leaf schema, and a serialized schema whose element holds
    both a schema and resource attributes. *)
Definition leafSchema : MarshallableSchema :=
  mkMarshallableSchema shim.TypeString true false false false None 0 0 "".

Definition mixedSchema : MarshallableSchema :=
  mkMarshallableSchema shim.TypeList true false false false
    (Some (mkMarshallableElem (Some leafSchema) {["name" := leafSchema]})) 0 0 "".


Definition brokenShimProvider : Provider :=
  mkProvider (Returned ∅) (Returned ∅)
             (Panicked (PanicError (foreignError "duplicate data source"))).


Definition sampleProviderInfo (P : option Provider)
    (resources : gmap string (option (@ResourceInfo sampleExternal sampleDeclared)))
  : @ProviderInfo sampleExternal sampleDeclared :=
  mkProviderInfo (H := sampleExternal) (H0 := sampleDeclared)
    P "aws" "awsx" "hashicorp" "example.com" "" [] "" "" "" "" "" "" "1.2.3"
    ∅ ∅ resources ∅ ∅ ∅ ∅ [] [] [] ""
    None None None None None "4.0.0" (Some "MIT") "v4"
    None None None None "" None None [] false false false.


End samples.


(** * Theorems *)

(** ** The schema-only provider adapter *)
Module schemashim_facts.
Import schemashim.

Section Facts.
Context `{ExternalFunctions}.

Lemma HasError_spec (diags : list Diagnostic) :
  HasError diags = true <->
  exists d, In d diags /\ diagSeverity d = SeverityError.
Proof.
  unfold HasError. rewrite existsb_exists.
  split; intros [d [Hin Hd]]; exists d; split; auto; unfold isError in *.
  - destruct (diagSeverity d); congruence.
  - now rewrite Hd.
Qed.

(** C4. Every runtime operation of a schema-only provider panics, for every
    receiver and all arguments, with a string message. The message contains
    the name of the invoked method for every operation except
    [NewResourceConfig], whose message says [ResourceConfig] and so does
    not contain the method's name. *)
Theorem runtime_operations_unsupported :
  forall (R : Type) (p : SchemaOnlyProvider) (call : RuntimeCall R),
  exists msg : string,
    invoke p call = Panicked (PanicString msg) /\
    HasPrefix msg "schemaOnlyProvider does not implement runtime operation " = true /\
    Contains msg (opName (opOf call)) =
      match opOf call with OpNewResourceConfig => false | _ => true end.
Proof.
  intros R p call.
  destruct call; simpl; eexists; (split; [reflexivity | split; vm_compute; reflexivity]).
Qed.

(** C5. [Schema] asks the plugin for its schema exactly once, starting
    from an empty response. If the response carries a diagnostic of error
    severity, [Schema] panics and returns no schema map; otherwise it
    returns the schema map built from the response's schema.
    [ResourcesMap] and [DataSourcesMap] gather once; a gathering error is
    re-raised as a panic carrying that error, and without an error the
    gathered schemas are returned wrapped. *)
Theorem schema_errors_are_fatal :
  forall p : SchemaOnlyProvider,
    let resp := tfSchema (tf p) (ctx p) emptySchemaRequest
                  (mkSchemaResponse zeroPfSchema []) in
    (fst (Schema p) = [CallSchema] /\
     ((exists d, In d (Diagnostics resp) /\ diagSeverity d = SeverityError) ->
        snd (Schema p) = Panicked (PanicString "Schema() returned error diags")) /\
     ((forall d, In d (Diagnostics resp) -> diagSeverity d <> SeverityError) ->
        snd (Schema p) = Returned (newSchemaMap (FromProviderSchema (Schema_ resp))))) /\
    (fst (ResourcesMap p) = [CallGatherResources] /\
     (forall e, snd (GatherResources context_TODO (tf p)) = Some e ->
        snd (ResourcesMap p) = Panicked (PanicError e)) /\
     (snd (GatherResources context_TODO (tf p)) = None ->
        snd (ResourcesMap p) =
          Returned (mkSchemaOnlyResourceMap (fst (GatherResources context_TODO (tf p)))))) /\
    (fst (DataSourcesMap p) = [CallGatherDatasources] /\
     (forall e, snd (GatherDatasources context_TODO (tf p)) = Some e ->
        snd (DataSourcesMap p) = Panicked (PanicError e)) /\
     (snd (GatherDatasources context_TODO (tf p)) = None ->
        snd (DataSourcesMap p) =
          Returned (mkSchemaOnlyDataSourceMap (fst (GatherDatasources context_TODO (tf p)))))).
Proof.
  intros p resp. repeat split.
  - intros Herr. apply HasError_spec in Herr.
    unfold Schema. cbn. fold resp. now rewrite Herr.
  - intros Hok. unfold Schema. cbn. fold resp.
    destruct (HasError (Diagnostics resp)) eqn:E; [|reflexivity].
    apply HasError_spec in E. destruct E as [d [Hin Hd]].
    now destruct (Hok d Hin).
  - unfold ResourcesMap. now destruct (GatherResources _ _).
  - intros e He. unfold ResourcesMap.
    destruct (GatherResources _ _) as [r err]. cbn in *. now subst.
  - intros He. unfold ResourcesMap.
    destruct (GatherResources _ _) as [r err]. cbn in *. now subst.
  - unfold DataSourcesMap. now destruct (GatherDatasources _ _).
  - intros e He. unfold DataSourcesMap.
    destruct (GatherDatasources _ _) as [r err]. cbn in *. now subst.
  - intros He. unfold DataSourcesMap.
    destruct (GatherDatasources _ _) as [r err]. cbn in *. now subst.
Qed.
End Facts.

(** The hypotheses of [schema_errors_are_fatal] at sample providers: a
    plugin reporting a warning and an error makes [Schema] panic; the
    sample's data-source gathering fails and [DataSourcesMap] panics with
    that error; its resource gathering succeeds. *)
Lemma schema_errors_are_fatal_witness :
  snd (Schema (H0 := sampleFunctions)
         (sampleProvider 7 [mkDiagnostic SeverityWarning "w" ""; mkDiagnostic SeverityError "e" ""]))
    = Panicked (PanicString "Schema() returned error diags") /\
  snd (Schema (H0 := sampleFunctions) (sampleProvider 7 [mkDiagnostic SeverityWarning "w" ""]))
    = Returned (8%nat : @SchemaMap sampleTypes) /\
  snd (DataSourcesMap (H0 := sampleFunctions) (sampleProvider 7 []))
    = Panicked (PanicError (foreignError "duplicate data source")) /\
  snd (ResourcesMap (H0 := sampleFunctions) (sampleProvider 7 []))
    = Returned (mkSchemaOnlyResourceMap (["res_a"] : @Resources sampleTypes)).
Proof.
  split; [|split; [|split]].
  - apply (proj1 (proj2 (proj1
      (schema_errors_are_fatal (H0 := sampleFunctions)
         (sampleProvider 7 [mkDiagnostic SeverityWarning "w" ""; mkDiagnostic SeverityError "e" ""]))))).
    exists (mkDiagnostic SeverityError "e" ""). split; [right; left; reflexivity | reflexivity].
  - apply (proj2 (proj2 (proj1
      (schema_errors_are_fatal (H0 := sampleFunctions)
         (sampleProvider 7 [mkDiagnostic SeverityWarning "w" ""]))))).
    intros d [Hd | []]. subst d. discriminate.
  - apply (proj1 (proj2 (proj2 (proj2
      (schema_errors_are_fatal (H0 := sampleFunctions) (sampleProvider 7 []))))) ).
    reflexivity.
  - apply (proj2 (proj2 (proj1 (proj2
      (schema_errors_are_fatal (H0 := sampleFunctions) (sampleProvider 7 [])))))).
    reflexivity.
Defined.

End schemashim_facts.

(** ** The naming rule *)
Module naming_facts.
Import naming.

Example pluralize_instance :
  toPropertyKey (H := regularInflector) "instance" (tftypes.List tftypes.String) = "instances".
Proof. reflexivity. Qed.

Example keep_scalar_name :
  toPropertyKey (H := regularInflector) "instance" tftypes.String = "instance".
Proof. reflexivity. Qed.

Example keep_plural_name :
  toPropertyKey (H := regularInflector) "instances" (tftypes.List tftypes.String) = "instances".
Proof. reflexivity. Qed.

Section Facts.
Context `{Inflector}.

Lemma willPluralize_spec (s : string) (t : tftypes.Type_) :
  willPluralize s t = true <-> pluralizes s t.
Proof.
  unfold willPluralize, pluralizes.
  destruct (tftypes.Is_List t); cbn.
  - rewrite andb_true_iff, negb_true_iff, String.eqb_eq, String.eqb_neq. tauto.
  - split; [discriminate | intros [Hl _]; discriminate].
Qed.

Lemma willPluralize_false (s : string) (t : tftypes.Type_) :
  willPluralize s t = false <-> ~ pluralizes s t.
Proof.
  rewrite <- willPluralize_spec. destruct (willPluralize s t); split; congruence.
Qed.

Lemma toPropertyKey_plural (s : string) (t : tftypes.Type_) :
  pluralizes s t -> toPropertyKey s t = Pluralize s.
Proof.
  intros Hp. apply willPluralize_spec in Hp. unfold toPropertyKey. now rewrite Hp.
Qed.

Lemma toPropertyKey_unchanged_iff (s : string) (t : tftypes.Type_) :
  toPropertyKey s t = s <-> ~ pluralizes s t.
Proof.
  unfold toPropertyKey. destruct (willPluralize s t) eqn:E.
  - apply willPluralize_spec in E. split.
    + intros Heq. destruct E as [_ [_ Hne]]. contradiction.
    + intros Hn. contradiction.
  - apply willPluralize_false in E. split; [intros _; exact E | reflexivity].
Qed.

(** C6. The naming rule returns the plural form when the type is a list,
    singularizing the plural gives the name back, and the plural differs
    from the name; in every other case it returns the name unchanged. The
    result differs from the name exactly under that condition. The function
    is total: it always returns a key. *)
Theorem toPropertyKey_rule (s : string) (t : tftypes.Type_) :
  (pluralizes s t -> toPropertyKey s t = Pluralize s) /\
  (~ pluralizes s t -> toPropertyKey s t = s) /\
  (toPropertyKey s t <> s <-> pluralizes s t) /\
  (tftypes.Is_List t = false -> toPropertyKey s t = s).
Proof.
  unfold toPropertyKey.
  destruct (willPluralize s t) eqn:E.
  - apply willPluralize_spec in E.
    split; [reflexivity | split; [tauto | split]].
    + split; [intros _; exact E | intros _; apply E].
    + intros Hl. destruct E as [E _]. congruence.
  - apply willPluralize_false in E.
    split; [tauto | split; [reflexivity | split]].
    + split; [congruence | tauto].
    + reflexivity.
Qed.

(** C7. When the rule pluralizes [s], applying it again to the result
    leaves the result unchanged exactly when the rule does not pluralize
    the plural form itself; this is the case in particular when
    [Pluralize] leaves the plural form unchanged. *)
Theorem toPropertyKey_idempotent_iff (s : string) (t : tftypes.Type_) :
  pluralizes s t ->
  (toPropertyKey (toPropertyKey s t) t = toPropertyKey s t
     <-> ~ pluralizes (Pluralize s) t) /\
  (Pluralize (Pluralize s) = Pluralize s ->
     toPropertyKey (toPropertyKey s t) t = toPropertyKey s t).
Proof.
  intros Hp.
  rewrite (toPropertyKey_plural s t Hp).
  split; [apply toPropertyKey_unchanged_iff|].
  intros Hfix. apply toPropertyKey_unchanged_iff. intros [_ [_ Hne]]. contradiction.
Qed.
End Facts.

(** The naming rule at "instance" with a list type: the hypothesis of the
    first part of [toPropertyKey_rule] holds and the plural is used. *)
Lemma toPropertyKey_rule_witness :
  toPropertyKey (H := regularInflector) "instance" (tftypes.List tftypes.String)
    = "instances".
Proof.
  apply (proj1 (toPropertyKey_rule (H := regularInflector)
                  "instance" (tftypes.List tftypes.String))).
  unfold pluralizes. split; [reflexivity | split; [reflexivity | discriminate]].
Defined.

(** With an inflector whose plural forms end in "s" and are left unchanged
    by [Pluralize], the rule is idempotent at "instance". *)
Lemma toPropertyKey_idempotent_witness :
  toPropertyKey (H := regularInflector)
    (toPropertyKey (H := regularInflector) "instance" (tftypes.List tftypes.String))
    (tftypes.List tftypes.String)
  = toPropertyKey (H := regularInflector) "instance" (tftypes.List tftypes.String).
Proof.
  assert (Hp : pluralizes (H := regularInflector) "instance" (tftypes.List tftypes.String)).
  { unfold pluralizes. split; [reflexivity | split; [reflexivity | discriminate]]. }
  apply (proj2 (toPropertyKey_idempotent_iff (H := regularInflector)
                  "instance" (tftypes.List tftypes.String) Hp)).
  reflexivity.
Defined.

(** With an inflector that has the irregular pair man/men, the rule
    pluralizes "man" to "men", and pluralizes "men" again to "mens":
    the second application changes the already-pluralized name. *)
Lemma toPropertyKey_not_idempotent :
  pluralizes (H := irregularInflector) "man" (tftypes.List tftypes.String) /\
  toPropertyKey (H := irregularInflector) "man" (tftypes.List tftypes.String) = "men" /\
  toPropertyKey (H := irregularInflector)
    (toPropertyKey (H := irregularInflector) "man" (tftypes.List tftypes.String))
    (tftypes.List tftypes.String)
  <> toPropertyKey (H := irregularInflector) "man" (tftypes.List tftypes.String).
Proof.
  split; [|split].
  - unfold pluralizes. split; [reflexivity | split; [reflexivity | discriminate]].
  - reflexivity.
  - vm_compute. discriminate.
Defined.

End naming_facts.

(** ** Marshalling of schemas *)
Module marshalling_facts.
Import tfbridge.

Example sample_roundtrip_marshalled :
  MarshalSchema (MarshallableSchema_Unmarshal (MarshalSchema sampleSchema))
  = MarshalSchema sampleSchema.
Proof. vm_compute. reflexivity. Qed.

Example sample_roundtrip_lossy :
  MarshallableSchema_Unmarshal (MarshalSchema sampleSchema) <> sampleSchema.
Proof. vm_compute. discriminate. Qed.

Lemma height_lookup (m : gmap string shim.Schema) (k : string) (s : shim.Schema) :
  m !! k = Some s ->
  (shim.height s <= map_fold (fun _ s acc => Nat.max (shim.height s) acc) 0 m)%nat.
Proof.
  revert k s. induction m as [|i x m Hi Hfold IH] using map_first_key_ind.
  - intros k s H. rewrite lookup_empty in H. discriminate.
  - intros k s H. rewrite map_fold_insert_first_key by assumption.
    destruct (decide (i = k)) as [->|Hne].
    + rewrite lookup_insert_eq in H. injection H as ->. lia.
    + rewrite lookup_insert_ne in H by assumption. specialize (IH k s H). lia.
Qed.

Lemma unmarshal_marshal_bounded (n : nat) :
  forall s : shim.Schema, (shim.height s <= n)%nat ->
    shim.agree (MarshallableSchema_Unmarshal (MarshalSchema s)) s /\
    MarshalSchema (MarshallableSchema_Unmarshal (MarshalSchema s)) = MarshalSchema s.
Proof.
  induction n as [|n IH]; intros [t o r c f e mx mn d desc sens] Hh;
    cbn [shim.height] in Hh; [lia|].
  assert (He : (shim.heightElem e <= n)%nat) by lia. clear Hh.
  destruct e as [|s0|[[m|]]].
  - split; [constructor; constructor | reflexivity].
  - cbn [shim.heightElem] in He. destruct (IH s0 He) as [Ha Hm].
    split.
    + constructor. constructor. exact Ha.
    + cbn. cbn in Hm. now rewrite Hm.
  - cbn [shim.heightElem shim.heightResource] in He.
    assert (Hall : forall k s, m !! k = Some s ->
              shim.agree (MarshallableSchema_Unmarshal (MarshalSchema s)) s /\
              MarshalSchema (MarshallableSchema_Unmarshal (MarshalSchema s)) = MarshalSchema s).
    { intros k s Hk. apply IH. pose proof (height_lookup m k s Hk). lia. }
    split.
    + constructor. constructor. intros k.
      unfold shim.attributes. cbn.
      rewrite !lookup_fmap.
      destruct (m !! k) as [s|] eqn:Hk; cbn; constructor.
      apply (Hall k s Hk).
    + cbn. do 2 f_equal. f_equal.
      rewrite <- !map_fmap_compose.
      apply map_fmap_ext. intros k s Hk. cbn. apply (Hall k s Hk).
  - split.
    + constructor. constructor. intros k.
      unfold shim.attributes. cbn. rewrite fmap_empty, lookup_empty. constructor.
    + cbn. now rewrite !fmap_empty.
Qed.

(** C8. Unmarshalling a marshalled schema yields a schema with the same
    type, optional/required/computed/forceNew flags, item bounds and
    deprecation message, whose element agrees recursively with the original
    one (element schema or nested resource); marshalling the result again
    gives the same marshallable schema. The fields that are not persisted
    come back as zero values. *)
Theorem marshal_unmarshal_roundtrip :
  forall s : shim.Schema,
    let s' := MarshallableSchema_Unmarshal (MarshalSchema s) in
    shim.Type_ s' = shim.Type_ s /\
    shim.Optional s' = shim.Optional s /\
    shim.Required s' = shim.Required s /\
    shim.Computed s' = shim.Computed s /\
    shim.ForceNew s' = shim.ForceNew s /\
    shim.MaxItems s' = shim.MaxItems s /\
    shim.MinItems s' = shim.MinItems s /\
    shim.Deprecated s' = shim.Deprecated s /\
    shim.agreeElem (shim.Elem s') (shim.Elem s) /\
    shim.agree s' s /\
    MarshalSchema s' = MarshalSchema s /\
    shim.Description s' = "" /\ shim.Sensitive s' = false.
Proof.
  intros s s'.
  destruct (unmarshal_marshal_bounded (shim.height s) s (le_n _)) as [Ha Hm].
  fold s' in Ha, Hm.
  assert (He : shim.agreeElem (shim.Elem s') (shim.Elem s)).
  { inversion Ha; subst; cbn; assumption. }
  destruct s as [t o r c f e mx mn d desc sens]. subst s'.
  cbn in *. repeat split; assumption.
Qed.

End marshalling_facts.

(** ** Default infos and identity fields *)
Module info_facts.
Import resource tfbridge.

Section Facts.
Context `{External}.

(** C10. Marshalling a default info and unmarshalling it again keeps
    [AutoNamed], [Value] and [EnvVars]. If [From] or [ComputeDefault] was
    set, the result has a [ComputeDefault] that panics on every context
    and all options, and no [From]; if neither was set, the result has no
    [ComputeDefault]. *)
Theorem unmarshaled_default_function_faults (d : DefaultInfo) :
  exists d' : DefaultInfo,
    MarshallableDefaultInfo_Unmarshal (MarshalDefaultInfo (Some d)) = Some d' /\
    AutoNamed d' = AutoNamed d /\
    Value d' = Value d /\
    EnvVars d' = EnvVars d /\
    From d' = None /\
    (From d <> None \/ ComputeDefault d <> None ->
       exists f, ComputeDefault d' = Some f /\
         forall ctx opts,
           f ctx opts =
             Panicked (PanicString
               "transforms cannot be run on unmarshaled DefaultInfo values")) /\
    (From d = None /\ ComputeDefault d = None -> ComputeDefault d' = None).
Proof.
  destruct d as [an cfg from cd v env].
  eexists. split; [reflexivity|]. cbn.
  repeat split.
  - intros Hset.
    assert (Hf : notNil from || notNil cd = true).
    { destruct from, cd; cbn; try reflexivity. destruct Hset; congruence. }
    rewrite Hf. eexists. split; [reflexivity|]. reflexivity.
  - intros [-> ->]. reflexivity.
Qed.

End Facts.

(** [sampleDefault] has [From] set: after a round trip its
    [ComputeDefault] is present and panics. *)
Lemma unmarshaled_default_function_faults_witness :
  exists d' : @DefaultInfo sampleExternal,
    MarshallableDefaultInfo_Unmarshal (MarshalDefaultInfo (Some sampleDefault)) = Some d' /\
    exists f, ComputeDefault d' = Some f /\
      forall ctx opts,
        f ctx opts =
          Panicked (PanicString "transforms cannot be run on unmarshaled DefaultInfo values").
Proof.
  destruct (unmarshaled_default_function_faults (H := sampleExternal) sampleDefault)
    as [d' [Hd [_ [_ [_ [_ [Hf _]]]]]]].
  exists d'. split; [exact Hd|].
  apply Hf. left. discriminate.
Defined.



End info_facts.

(** ** Number conversion *)
Module number_facts.
Import resource convert.
Local Open Scope Z_scope.












Lemma shr_nonpos (mrs : shr_record) (e n : Z) : n <= 0 -> shr mrs e n = (mrs, e).
Proof. destruct n; [reflexivity|lia|reflexivity]. Qed.











Lemma same_value_sym (x y : BigFloat) : same_value x y -> same_value y x.
Proof. unfold same_value. cbv zeta. rewrite (Z.min_comm (exp y)). auto. Qed.














End number_facts.

(** ** The value conversion engine *)
Module convert_facts.
Import resource convert.

Example turnaround_string :
  ConvertTFValueToProperty tftypes.String
    (mkValue tftypes.String (KnownString "test-string")) = Ok (String "test-string") /\
  ConvertPropertyToTFValue tftypes.String (String "test-string")
    = Ok (mkValue tftypes.String (KnownString "test-string")).
Proof. split; reflexivity. Qed.

Example turnaround_bool :
  ConvertTFValueToProperty tftypes.Bool (mkValue tftypes.Bool (KnownBool true))
    = Ok (Bool true) /\
  ConvertPropertyToTFValue tftypes.Bool (Bool true)
    = Ok (mkValue tftypes.Bool (KnownBool true)).
Proof. split; reflexivity. Qed.

Example turnaround_nil :
  ConvertTFValueToProperty tftypes.Number (mkValue tftypes.Number IsNull) = Ok Null /\
  ConvertPropertyToTFValue tftypes.Number Null = Ok (mkValue tftypes.Number IsNull).
Proof. split; reflexivity. Qed.

Example turnaround_number_42 :
  ConvertTFValueToProperty tftypes.Number
    (mkValue tftypes.Number (KnownNumber (ofZ 42))) = Ok (Number f64_42) /\
  ConvertPropertyToTFValue tftypes.Number (Number f64_42)
    = Ok (mkValue tftypes.Number (KnownNumber (mkBigFloat 5910974510923776 (-47)))) /\
  same_value (mkBigFloat 5910974510923776 (-47)) (ofZ 42).
Proof. repeat split; vm_compute; reflexivity. Qed.

Example turnaround_number_3_12 :
  ConvertTFValueToProperty tftypes.Number
    (mkValue tftypes.Number (KnownNumber (mkBigFloat 7025615418697974 (-51))))
    = Ok (Number f64_3_12).
Proof. vm_compute. reflexivity. Qed.

Example turnaround_list :
  ConvertTFValueToProperty (tftypes.List tftypes.String)
    (mkValue (tftypes.List tftypes.String)
       (KnownList [mkValue tftypes.String (KnownString "a");
                   mkValue tftypes.String IsUnknown]))
  = Ok (Array [String "a"; Computed (String "")]).
Proof. reflexivity. Qed.

Example mismatch_is_an_error :
  ConvertTFValueToProperty (tftypes.List tftypes.String)
    (mkValue tftypes.String (KnownString "a"))
  = Err (TypedMismatch (tftypes.List tftypes.String)
           (mkValue tftypes.String (KnownString "a"))).
Proof. reflexivity. Qed.

(** C1. For every descriptor, the Typed Unknown value converts to Computed
    around the zero-shaped value (empty string, zero, false, empty array,
    empty object), and every Computed value, whatever it wraps, converts
    back to the Typed Unknown value of the descriptor, which is not a Known
    value. *)
Theorem unknown_law :
  forall D : tftypes.Type_,
    ConvertTFValueToProperty D (mkValue D IsUnknown) = Ok (Computed (zeroValue D)) /\
    zeroValue tftypes.String = String "" /\
    zeroValue tftypes.Number = Number (S754_zero false) /\
    zeroValue tftypes.Bool = Bool false /\
    (forall E, zeroValue (tftypes.List E) = Array []) /\
    (forall attrs, zeroValue (tftypes.Object attrs) = Object ∅) /\
    (forall placeholder : PropertyValue,
       ConvertPropertyToTFValue D (Computed placeholder) = Ok (mkValue D IsUnknown)) /\
    (forall v : Value,
       ConvertPropertyToTFValue D (Computed (zeroValue D)) = Ok v ->
       has_shape D (payload v) = false).
Proof.
  intros D.
  assert (Hto : ConvertTFValueToProperty D (mkValue D IsUnknown)
                = Ok (Computed (zeroValue D))) by (destruct D; reflexivity).
  assert (Hback : forall placeholder,
            ConvertPropertyToTFValue D (Computed placeholder) = Ok (mkValue D IsUnknown))
    by (intros placeholder; destruct D; reflexivity).
  repeat split; try assumption.
  intros v Hv. rewrite Hback in Hv. injection Hv as <-. destruct D; reflexivity.
Qed.

(** C3. For the descriptors Bool and String and every Known value of that
    shape, converting to a Property value and back returns the value, and
    converting the result once more to a Property value gives the first
    Property value again. *)
Theorem primitive_round_trip :
  forall (D : tftypes.Type_) (v : Value),
    D = tftypes.Bool \/ D = tftypes.String ->
    typ v = D ->
    has_shape D (payload v) = true ->
    exists p : PropertyValue,
      ConvertTFValueToProperty D v = Ok p /\
      ConvertPropertyToTFValue D p = Ok v /\
      (forall v', ConvertPropertyToTFValue D p = Ok v' ->
                  ConvertTFValueToProperty D v' = Ok p).
Proof.
  intros D [ty pl] HD Hty Hshape. cbn in Hty. subst ty.
  destruct HD as [-> | ->]; destruct pl; try discriminate Hshape;
    (eexists; split; [reflexivity | split; [reflexivity |]]);
    intros v' Hv'; cbn in Hv'; injection Hv' as <-; reflexivity.
Qed.

(** The round trip of the Known string "test-string". *)
Lemma primitive_round_trip_witness :
  exists p : PropertyValue,
    ConvertTFValueToProperty tftypes.String
      (mkValue tftypes.String (KnownString "test-string")) = Ok p /\
    ConvertPropertyToTFValue tftypes.String p
      = Ok (mkValue tftypes.String (KnownString "test-string")).
Proof.
  destruct (primitive_round_trip tftypes.String
              (mkValue tftypes.String (KnownString "test-string"))
              (or_intror eq_refl) eq_refl eq_refl) as [p [H1 [H2 _]]].
  exists p. split; assumption.
Defined.

End convert_facts.

(** ** More on the naming rule and on identity fields *)
Module naming_more_facts.
Import naming.

Section Facts.
Context `{Inflector}.

(** X1. The key that the naming rule returns is the name itself or its
    plural. Whenever the key differs from the name, singularizing the key
    gives the name back; hence two names that are both changed by the rule
    and get the same key are the same name. *)
Theorem toPropertyKey_recoverable (s s' : string) (t : tftypes.Type_) :
  (toPropertyKey s t = s \/ toPropertyKey s t = Pluralize s) /\
  (toPropertyKey s t <> s -> Singularize (toPropertyKey s t) = s) /\
  (toPropertyKey s t <> s -> toPropertyKey s' t <> s' ->
   toPropertyKey s t = toPropertyKey s' t -> s = s').
Proof.
  assert (Hrec : forall x, toPropertyKey x t <> x ->
            toPropertyKey x t = Pluralize x /\ Singularize (Pluralize x) = x).
  { intros x Hx.
    assert (Hp : pluralizes x t).
    { destruct (willPluralize x t) eqn:E.
      - now apply naming_facts.willPluralize_spec.
      - exfalso. apply Hx. unfold toPropertyKey. now rewrite E. }
    split; [now apply naming_facts.toPropertyKey_plural | apply Hp]. }
  split; [|split].
  - unfold toPropertyKey. destruct (willPluralize s t); auto.
  - intros Hs. destruct (Hrec s Hs) as [-> Hsing]. exact Hsing.
  - intros Hs Hs' Heq.
    destruct (Hrec s Hs) as [Hk Hsing]. destruct (Hrec s' Hs') as [Hk' Hsing'].
    rewrite Hk, Hk' in Heq. rewrite <- Hsing, <- Hsing'. now rewrite Heq.
Qed.
End Facts.
End naming_more_facts.

Module identity_facts.
Import resource tfbridge.

Section Facts.
Context `{External}.

(** X20. On every context and state, the function returned by
    [DelegateIDField] writes nothing to the log or one warning, the latter
    only for a value marked secret in a context with a logger. If it
    panics, nothing was logged, and the value was computed or an unknown
    output, or it was marked secret and the context has no logger. If it
    returns an error, the ID is empty and the error is an identity-field
    error carrying the provider name and URL of the delegate. If it returns
    without an error, the ID is the string found after removing one secret
    wrapper, and a warning was logged if the value was marked secret. *)
Theorem DelegateIDField_outcomes (field providerName repoURL : string)
    (ctx : context_Context) (state : PropertyMap) :
  let '(log, result) := DelegateIDField field providerName repoURL ctx state in
  (log = [] \/
   exists h v, ctxLogger ctx = Some h /\ state !! field = Some v /\
               marked_secret v = true /\
               log = [mkLogEntry h LevelWarn (secret_warning field)]) /\
  match result with
  | Panicked _ =>
      log = [] /\
      exists v, state !! field = Some v /\
                (settled v -> marked_secret v = true /\ ctxLogger ctx = None)
  | Returned (id, Some e) =>
      id = "" /\ exists msg, e = delegateIDFieldError msg providerName repoURL
  | Returned (id, None) =>
      exists v, state !! field = Some v /\ settled v /\ unwrapped v = String id /\
                (marked_secret v = true -> log <> [])
  end.
Proof.
  unfold DelegateIDField.
  destruct (state !! field) as [v|] eqn:Hv.
  - destruct v as [| b | f | s | l | m | e | e | e k sec deps]; cbn.
    + split; [auto|]. split; [reflexivity | eauto].
    + split; [auto|]. split; [reflexivity | eauto].
    + split; [auto|]. split; [reflexivity | eauto].
    + split; [auto|]. exists (String s). unfold settled. cbn.
      repeat split; try discriminate.
    + split; [auto|]. split; [reflexivity | eauto].
    + split; [auto|]. split; [reflexivity | eauto].
    + split; [auto|]. split; [reflexivity|]. exists (Computed e).
      split; [reflexivity|]. intros [Hc _]. discriminate.
    + unfold GetLogger. destruct (ctxLogger ctx) as [h|] eqn:Hctx; cbn.
      * destruct (IsString e) eqn:He; cbn.
        -- split; [right; exists h, (Secret e); auto|].
           exists (Secret e). unfold settled. cbn.
           destruct e; try discriminate. cbn.
           repeat split; try discriminate.
        -- split; [right; exists h, (Secret e); auto|].
           split; [reflexivity | eauto].
      * split; [auto|]. split; [reflexivity|]. exists (Secret e).
        split; [reflexivity | auto].
    + destruct k; cbn.
      * destruct sec; cbn.
        -- unfold GetLogger. destruct (ctxLogger ctx) as [h|] eqn:Hctx; cbn.
           ++ destruct (IsString e) eqn:He; cbn.
              ** split; [right; exists h, (Output e true true deps); auto|].
                 exists (Output e true true deps). unfold settled. cbn.
                 destruct e; try discriminate. cbn.
                 repeat split; try discriminate.
              ** split; [right; exists h, (Output e true true deps); auto|].
                 split; [reflexivity | eauto].
           ++ split; [auto|]. split; [reflexivity|].
              exists (Output e true true deps). split; [reflexivity | auto].
        -- split; [auto|]. split; [reflexivity | eauto].
      * split; [auto|]. split; [reflexivity|]. exists (Output e false sec deps).
        split; [reflexivity|]. intros [_ Hk]. specialize (Hk eq_refl). discriminate.
  - split; [auto|]. split; [reflexivity | eauto].
Qed.
End Facts.
End identity_facts.

(** ** Serialized schemas read back *)
Module snapshot_facts.
Import tfbridge snapshot.

Lemma depth_lookup (m : gmap string MarshallableSchema) (k : string) (s : MarshallableSchema) :
  m !! k = Some s ->
  (depth s <= map_fold (fun _ s acc => Nat.max (depth s) acc) 0 m)%nat.
Proof.
  revert k s. induction m as [|i x m Hi Hfold IH] using map_first_key_ind.
  - intros k s H. rewrite lookup_empty in H. discriminate.
  - intros k s H. rewrite map_fold_insert_first_key by assumption.
    destruct (decide (i = k)) as [->|Hne].
    + rewrite lookup_insert_eq in H. injection H as ->. lia.
    + rewrite lookup_insert_ne in H by assumption. specialize (IH k s H). lia.
Qed.

Lemma fmap_id_on {A} (f : A -> A) (m : gmap string A) :
  f <$> m = m <-> (forall k x, m !! k = Some x -> f x = x).
Proof.
  split.
  - intros Heq k x Hk.
    assert (H : (f <$> m) !! k = Some x) by now rewrite Heq.
    rewrite lookup_fmap, Hk in H. cbn in H. congruence.
  - intros Hall. apply map_eq. intros k. rewrite lookup_fmap.
    destruct (m !! k) as [x|] eqn:Hk; cbn; [|reflexivity].
    f_equal. eauto.
Qed.

Lemma canonical_marshal (s : shim.Schema) : canonical (MarshalSchema s).
Proof.
  remember (shim.height s) as n eqn:Hn.
  assert (Hle : (shim.height s <= n)%nat) by lia. clear Hn.
  revert s Hle. induction n as [|n IH]; intros [t o r c f e mx mn d desc sens] Hh;
    cbn [shim.height] in Hh; [lia|].
  assert (He : (shim.heightElem e <= n)%nat) by lia. clear Hh.
  destruct e as [|s0|[[m|]]]; cbn.
  - constructor.
  - constructor. apply IH. exact He.
  - constructor. intros k s Hk. rewrite lookup_fmap in Hk.
    destruct (m !! k) as [s1|] eqn:Hm; cbn in Hk; [|discriminate].
    injection Hk as <-. apply IH.
    cbn [shim.heightElem shim.heightResource] in He.
    pose proof (marshalling_facts.height_lookup m k s1 Hm). lia.
  - constructor. intros k s Hk. rewrite lookup_empty in Hk. discriminate.
Qed.

Lemma remarshal_canonical (m : MarshallableSchema) :
  canonical m -> MarshalSchema (MarshallableSchema_Unmarshal m) = m.
Proof.
  induction 1 as [t o r c f mx mn d | t o r c f s mx mn d Hs IH
                 | t o r c f res mx mn d Hres IH].
  - reflexivity.
  - cbn. cbn in IH. now rewrite IH.
  - cbn. do 3 f_equal. rewrite <- map_fmap_compose.
    apply fmap_id_on. intros k s Hk. cbn. apply (IH k s Hk).
Qed.

Lemma remarshal_fixed_bounded (n : nat) :
  forall m : MarshallableSchema, (depth m <= n)%nat ->
    MarshalSchema (MarshallableSchema_Unmarshal m) = m -> canonical m.
Proof.
  induction n as [|n IH]; intros [t o r c f e mx mn d] Hd Heq;
    cbn [depth] in Hd; [lia|].
  destruct e as [[[s|] res]|].
  - cbn in Heq. injection Heq as Hs Hres. subst res.
    constructor. apply IH; [|exact Hs]. cbn [depthElem] in Hd. lia.
  - cbn in Heq. injection Heq as Hres.
    constructor. intros k s Hk. apply IH.
    + cbn [depthElem] in Hd. pose proof (depth_lookup res k s Hk). lia.
    + rewrite <- map_fmap_compose in Hres.
      apply (proj1 (fmap_id_on _ res) Hres k s Hk).
  - constructor.
Qed.

Lemma remarshal_fixed_iff (m : MarshallableSchema) :
  MarshalSchema (MarshallableSchema_Unmarshal m) = m <-> canonical m.
Proof.
  split.
  - apply (remarshal_fixed_bounded (depth m)). lia.
  - apply remarshal_canonical.
Qed.

(** X2. Unmarshalling a serialized schema and marshalling the result gives
    the serialized schema back exactly when it is canonical: every element
    holds a schema and no resource attributes, or resource attributes only,
    at every level. Every schema that [MarshalSchema] produces is canonical.
    An element that holds a schema and at least one resource attribute loses
    its attributes, since [Unmarshal] looks at the schema first. *)
Theorem remarshal_identity_iff :
  (forall m : MarshallableSchema,
     MarshalSchema (MarshallableSchema_Unmarshal m) = m <-> canonical m) /\
  (forall s : shim.Schema, canonical (MarshalSchema s)) /\
  (forall (s : MarshallableSchema) (res : gmap string MarshallableSchema)
          t o r c f mx mn d,
     res <> ∅ ->
     MarshalSchema (MarshallableSchema_Unmarshal
        (mkMarshallableSchema t o r c f (Some (mkMarshallableElem (Some s) res)) mx mn d))
     <> mkMarshallableSchema t o r c f (Some (mkMarshallableElem (Some s) res)) mx mn d).
Proof.
  split; [exact remarshal_fixed_iff|]. split; [exact canonical_marshal|].
  intros s res t o r c f mx mn d Hne Heq. cbn in Heq. injection Heq as _ Hres.
  now apply Hne.
Qed.

End snapshot_facts.

(** ** Marshalling of schema and default infos *)
Module metadata_facts.
Import resource tfbridge metadata.

Section Facts.
Context `{External} `{Declared}.

Lemma remarshal_default (m : option MarshallableDefaultInfo) :
  MarshalDefaultInfo (MarshallableDefaultInfo_Unmarshal m) = m.
Proof.
  destruct m as [[an isf v env]|]; [|reflexivity].
  cbn. now destruct isf.
Qed.

Lemma infoDepth_lookup (m : gmap string (option MarshallableSchemaInfo))
    (k : string) (s : MarshallableSchemaInfo) :
  m !! k = Some (Some s) ->
  (infoDepth s <=
     map_fold (fun _ v acc =>
                 Nat.max (match v with Some e => infoDepth e | None => 0 end) acc)
              0 m)%nat.
Proof.
  revert k s. induction m as [|i x m Hi Hfold IH] using map_first_key_ind.
  - intros k s Hk. rewrite lookup_empty in Hk. discriminate.
  - intros k s Hk. rewrite map_fold_insert_first_key by assumption.
    destruct (decide (i = k)) as [->|Hne].
    + rewrite lookup_insert_eq in Hk. injection Hk as ->. lia.
    + rewrite lookup_insert_ne in Hk by assumption. specialize (IH k s Hk). lia.
Qed.

Lemma remarshal_info_bounded (n : nat) :
  forall m : MarshallableSchemaInfo, (infoDepth m <= n)%nat ->
    MarshalSchemaInfo' (MarshallableSchemaInfo_Unmarshal' m) = m.
Proof.
  induction n as [|n IH];
    intros [name csharp typ alts elem flds asset def mio depr fnew sec] Hd;
    cbn [infoDepth] in Hd; [lia|].
  cbn. f_equal.
  - destruct elem as [e|]; cbn; [|reflexivity]. f_equal. apply IH. lia.
  - rewrite <- map_fmap_compose. apply snapshot_facts.fmap_id_on.
    intros k [s|] Hk; cbn; [|reflexivity]. f_equal. apply IH.
    pose proof (infoDepth_lookup flds k s Hk). lia.
  - apply remarshal_default.
Qed.

Lemma remarshal_info (m : option MarshallableSchemaInfo) :
  MarshalSchemaInfo (MarshallableSchemaInfo_Unmarshal m) = m.
Proof.
  destruct m as [m|]; [|reflexivity]. cbn. f_equal.
  apply (remarshal_info_bounded (infoDepth m)). lia.
Qed.

(** X3. Marshalling an unmarshalled default info gives the serialized
    value back, nil included. The unmarshalled value has an empty [Config]
    and no [From], and its [ComputeDefault] is set exactly when the
    serialized [IsFunc] flag is. *)
Theorem MarshallableDefaultInfo_round_trip (m : option MarshallableDefaultInfo) :
  MarshalDefaultInfo (MarshallableDefaultInfo_Unmarshal m) = m /\
  (m = None <-> MarshallableDefaultInfo_Unmarshal m = None) /\
  (forall d, MarshallableDefaultInfo_Unmarshal m = Some d ->
     tfbridge.Config d = "" /\ From d = None /\
     exists m', m = Some m' /\ notNil (ComputeDefault d) = IsFunc m').
Proof.
  split; [apply remarshal_default|]. split.
  - destruct m; cbn; split; congruence.
  - intros d Hd. destruct m as [[an isf v env]|]; [|discriminate].
    cbn in Hd. injection Hd as <-. cbn. repeat split.
    eexists. split; [reflexivity|]. now destruct isf.
Qed.

(** X4. For schema infos of any nesting (element and fields), marshalling
    an unmarshalled value gives the serialized value back, a nil pointer
    and nil entries of [Fields] included. Hence marshalling is stable under
    a round trip, and unmarshal-after-marshal is idempotent. Only nil
    marshals to nil. A nil and an empty [Fields] map are not told apart. *)
Theorem SchemaInfo_remarshal :
  (forall m : option MarshallableSchemaInfo,
     MarshalSchemaInfo (MarshallableSchemaInfo_Unmarshal m) = m) /\
  (forall s : option SchemaInfo,
     MarshalSchemaInfo (MarshallableSchemaInfo_Unmarshal (MarshalSchemaInfo s))
     = MarshalSchemaInfo s) /\
  (forall s : option SchemaInfo,
     MarshallableSchemaInfo_Unmarshal
       (MarshalSchemaInfo (MarshallableSchemaInfo_Unmarshal (MarshalSchemaInfo s)))
     = MarshallableSchemaInfo_Unmarshal (MarshalSchemaInfo s)) /\
  (forall s : option SchemaInfo, MarshalSchemaInfo s = None <-> s = None).
Proof.
  split; [apply remarshal_info|]. split; [intros s; apply remarshal_info|]. split.
  - intros s. now rewrite remarshal_info.
  - intros [s|]; cbn; split; congruence.
Qed.

(** X5. What a schema info keeps and loses when it is marshalled and
    unmarshalled: name, C# name, type, alternative types, asset, the
    max-items-one, force-new and secret overrides, the deprecation message
    and the presence of a default are kept; the element and every field are
    themselves round-tripped; the nested type, the transformer, the
    stable, suppress-empty-map-elements, computed-only, optional and
    provider-replacement overrides are reset, and [Removed] and [Omit]
    come back false. *)
Theorem SchemaInfo_snapshot_fields (s : SchemaInfo) :
  let s' := MarshallableSchemaInfo_Unmarshal' (MarshalSchemaInfo' s) in
  (SchemaInfo_Name s' = SchemaInfo_Name s /\
   SchemaInfo_CSharpName s' = SchemaInfo_CSharpName s /\
   SchemaInfo_Type s' = SchemaInfo_Type s /\
   SchemaInfo_AltTypes s' = SchemaInfo_AltTypes s /\
   SchemaInfo_Asset s' = SchemaInfo_Asset s /\
   SchemaInfo_MaxItemsOne s' = SchemaInfo_MaxItemsOne s /\
   SchemaInfo_DeprecationMessage s' = SchemaInfo_DeprecationMessage s /\
   SchemaInfo_ForceNew s' = SchemaInfo_ForceNew s /\
   SchemaInfo_Secret s' = SchemaInfo_Secret s /\
   HasDefault s' = HasDefault s) /\
  (SchemaInfo_Elem s' =
     MarshallableSchemaInfo_Unmarshal (MarshalSchemaInfo (SchemaInfo_Elem s)) /\
   forall k, SchemaInfo_Fields s' !! k =
     (fun v => MarshallableSchemaInfo_Unmarshal (MarshalSchemaInfo v))
       <$> (SchemaInfo_Fields s !! k)) /\
  (SchemaInfo_NestedType s' = "" /\
   SchemaInfo_Transform s' = None /\
   SchemaInfo_Stable s' = None /\
   SchemaInfo_SuppressEmptyMapElements s' = None /\
   SchemaInfo_MarkAsComputedOnly s' = None /\
   SchemaInfo_MarkAsOptional s' = None /\
   SchemaInfo_ForcesProviderReplace s' = None /\
   SchemaInfo_Removed s' = false /\
   SchemaInfo_Omit s' = false).
Proof.
  destruct s as [name csharp typ alts nested tr elem flds asset def st mio sup mco mo
                 depr fnew fpr rem om sec].
  cbn. split; [|split].
  - repeat split. unfold HasDefault. cbn. now destruct def.
  - split.
    + now destruct elem.
    + intros k. rewrite !lookup_fmap. destruct (flds !! k) as [[v|]|]; reflexivity.
  - repeat split.
Qed.

End Facts.
End metadata_facts.

(** ** Marshalling of providers and provider infos *)
Module provider_facts.
Import resource tfbridge snapshot metadata.

Lemma rangeStore_returned {A B : Type} (f : A -> outcome B) (g : A -> B)
    (m : gmap string A) :
  (forall k v, m !! k = Some v -> f v = Returned (g v)) ->
  rangeStore f m = Returned (g <$> m).
Proof.
  unfold rangeStore.
  induction m as [|i x m Hi Hfold IH] using map_first_key_ind; intros Hall.
  - now rewrite map_fold_empty, fmap_empty.
  - rewrite map_fold_insert_first_key by assumption.
    rewrite IH.
    + rewrite (Hall i x) by apply lookup_insert_eq. now rewrite fmap_insert.
    + intros k v Hk. apply (Hall k v).
      rewrite lookup_insert_ne; [exact Hk | congruence].
Qed.

Lemma rangeStore_cases {A B : Type} (f : A -> outcome B) (m : gmap string A) :
  (exists out, rangeStore f m = Returned out /\
     forall k v, m !! k = Some v -> is_returned (f v) = true) \/
  (exists k v pv, m !! k = Some v /\ f v = Panicked pv /\ rangeStore f m = Panicked pv).
Proof.
  unfold rangeStore.
  induction m as [|i x m Hi Hfold IH] using map_first_key_ind.
  - left. exists ∅. rewrite map_fold_empty. split; [reflexivity|].
    intros k v Hk. rewrite lookup_empty in Hk. discriminate.
  - rewrite map_fold_insert_first_key by assumption.
    destruct IH as [[out [Hout Hall]] | [k [v [pv [Hk [Hv Hp]]]]]].
    + rewrite Hout. destruct (f x) as [b|pv] eqn:Hx.
      * left. eexists. split; [reflexivity|].
        intros k v Hk. destruct (decide (i = k)) as [->|Hne].
        -- rewrite lookup_insert_eq in Hk. injection Hk as <-. now rewrite Hx.
        -- rewrite lookup_insert_ne in Hk by assumption. eauto.
      * right. exists i, x, pv. rewrite lookup_insert_eq. auto.
    + right. exists k, v, pv. rewrite Hp. repeat split; try assumption.
      rewrite lookup_insert_ne; [exact Hk | congruence].
Qed.

Lemma rangeStore_panicked {A B : Type} (f : A -> outcome B) (pv : panic_value)
    (m : gmap string A) :
  (forall k v pv', m !! k = Some v -> f v = Panicked pv' -> pv' = pv) ->
  (exists k v, m !! k = Some v /\ is_returned (f v) = false) ->
  rangeStore f m = Panicked pv.
Proof.
  intros Hall [k [v [Hk Hv]]].
  destruct (rangeStore_cases f m) as [[out [_ Hret]] | [k' [v' [pv' [Hk' [Hv' Hp]]]]]].
  - rewrite (Hret k v Hk) in Hv. discriminate.
  - rewrite Hp. f_equal. eauto.
Qed.

Lemma rangeStore_all_returned {A B : Type} (f : A -> outcome B) (m : gmap string A) :
  (forall k v, m !! k = Some v -> is_returned (f v) = true) ->
  rangeStore f m = Returned (omap (fun v => returned (f v)) m).
Proof.
  unfold rangeStore.
  induction m as [|i x m Hi Hfold IH] using map_first_key_ind; intros Hall.
  - now rewrite map_fold_empty, omap_empty.
  - rewrite map_fold_insert_first_key by assumption.
    rewrite IH.
    + pose proof (Hall i x (lookup_insert_eq _ _ _)) as Hx.
      destruct (f x) as [b|pv] eqn:Hfx; [|discriminate].
      f_equal. symmetry. apply omap_insert_Some. now rewrite Hfx.
    + intros k v Hk. apply (Hall k v).
      rewrite lookup_insert_ne; [exact Hk | congruence].
Qed.


Lemma rangeStore_no_nil {A B : Type} (f : option A -> outcome B)
    (R : gmap string (option A)) (out : gmap string B) :
  f None = Panicked nilDereference ->
  rangeStore f R = Returned out -> noNilEntry R.
Proof.
  intros Hnil Hout k v Hk ->.
  destruct (rangeStore_cases f R) as [[out' [_ Hret]] | [k' [v' [pv' [_ [_ Hp]]]]]].
  - specialize (Hret k None Hk). rewrite Hnil in Hret. discriminate.
  - rewrite Hp in Hout. discriminate.
Qed.

Lemma rangeStore_nil_entry {A B : Type} (f : option A -> outcome B)
    (R : gmap string (option A)) :
  f None = Panicked nilDereference ->
  (forall a, is_returned (f (Some a)) = true) ->
  (exists k, R !! k = Some None) ->
  rangeStore f R = Panicked nilDereference.
Proof.
  intros Hnil Hsome [k Hk]. apply rangeStore_panicked.
  - intros k' [a|] pv' _ Hp.
    + specialize (Hsome a). rewrite Hp in Hsome. discriminate.
    + rewrite Hnil in Hp. congruence.
  - exists k, None. split; [exact Hk | now rewrite Hnil].
Qed.

Section Facts.
Context `{External} `{Declared}.













(** X11. [MarshalProviderInfo] panics with a nil dereference on nil and
    whenever an entry of [Resources] or [DataSources] is nil, before the
    provider is looked at. Without nil entries it returns exactly when
    [MarshalProvider] returns on the provider, and panics with the
    provider's panic otherwise. *)
Theorem MarshalProviderInfo_panics :
  MarshalProviderInfo None = Panicked nilDereference /\
  (forall p : ProviderInfo,
     (exists k, ProviderInfo_Resources p !! k = Some None) \/
     (exists k, ProviderInfo_DataSources p !! k = Some None) ->
     MarshalProviderInfo (Some p) = Panicked nilDereference) /\
  (forall (p : ProviderInfo) (pv : panic_value),
     noNilEntry (ProviderInfo_Resources p) ->
     noNilEntry (ProviderInfo_DataSources p) ->
     MarshalProvider (ProviderInfo_P p) = Panicked pv ->
     MarshalProviderInfo (Some p) = Panicked pv) /\
  (forall p : ProviderInfo,
     noNilEntry (ProviderInfo_Resources p) ->
     noNilEntry (ProviderInfo_DataSources p) ->
     is_returned (MarshalProviderInfo (Some p)) =
     is_returned (MarshalProvider (ProviderInfo_P p))).
Proof.
  assert (Hret : forall p : ProviderInfo,
     noNilEntry (ProviderInfo_Resources p) ->
     noNilEntry (ProviderInfo_DataSources p) ->
     exists res dat,
       rangeStore MarshalResourceInfo (ProviderInfo_Resources p) = Returned res /\
       rangeStore MarshalDataSourceInfo (ProviderInfo_DataSources p) = Returned dat).
  { intros p Hr Hd. eexists. eexists. split.
    - apply rangeStore_all_returned. intros k [a|] Hk; [reflexivity|].
      now destruct (Hr k None Hk).
    - apply rangeStore_all_returned. intros k [a|] Hk; [reflexivity|].
      now destruct (Hd k None Hk). }
  split; [reflexivity|]. split; [|split].
  - intros p Hnil. unfold MarshalProviderInfo.
    destruct (rangeStore_cases MarshalResourceInfo (ProviderInfo_Resources p))
      as [[out [Hout Hall]] | [k [v [pv [Hk [Hv Hp]]]]]].
    + rewrite Hout. destruct Hnil as [[k Hk] | Hk].
      * specialize (Hall k None Hk). discriminate.
      * rewrite (rangeStore_nil_entry MarshalDataSourceInfo); auto.
    + rewrite Hp. destruct v; cbn in Hv; congruence.
  - intros p pv Hr Hd Hp. destruct (Hret p Hr Hd) as [res [dat [Hres Hdat]]].
    unfold MarshalProviderInfo. now rewrite Hres, Hdat, Hp.
  - intros p Hr Hd. destruct (Hret p Hr Hd) as [res [dat [Hres Hdat]]].
    unfold MarshalProviderInfo. rewrite Hres, Hdat.
    now destruct (MarshalProvider (ProviderInfo_P p)).
Qed.

(** X12. [GetGitHubOrg] and [GetGitHubHost] never return the empty
    string: they return the configured value, or "terraform-providers" and
    "github.com". [GetResourcePrefix] returns the prefix, or the name when
    the prefix is empty, and is empty only when both are.
    [GetProviderModuleVersion] returns the stored version in both of its
    branches. [GetTFProviderLicense] answers "MPL 2.0" exactly when no
    license is stored or that one is. *)
Theorem provider_getters_defaults (info : ProviderInfo) :
  (GetGitHubOrg info <> "" /\
   (ProviderInfo_GitHubOrg info <> "" -> GetGitHubOrg info = ProviderInfo_GitHubOrg info) /\
   (ProviderInfo_GitHubOrg info = "" -> GetGitHubOrg info = "terraform-providers")) /\
  (GetGitHubHost info <> "" /\
   (ProviderInfo_GitHubHost info <> "" -> GetGitHubHost info = ProviderInfo_GitHubHost info) /\
   (ProviderInfo_GitHubHost info = "" -> GetGitHubHost info = "github.com")) /\
  ((GetResourcePrefix info = "" <->
    ProviderInfo_ResourcePrefix info = "" /\ ProviderInfo_Name info = "") /\
   (ProviderInfo_ResourcePrefix info <> "" ->
    GetResourcePrefix info = ProviderInfo_ResourcePrefix info) /\
   (ProviderInfo_ResourcePrefix info = "" ->
    GetResourcePrefix info = ProviderInfo_Name info)) /\
  GetProviderModuleVersion info = ProviderInfo_TFProviderModuleVersion info /\
  (GetTFProviderLicense info = "MPL 2.0" <->
   ProviderInfo_TFProviderLicense info = None \/
   ProviderInfo_TFProviderLicense info = Some "MPL 2.0").
Proof.
  unfold GetGitHubOrg, GetGitHubHost, GetResourcePrefix, GetProviderModuleVersion,
    GetTFProviderLicense, MPL20LicenseType.
  split; [|split; [|split; [|split]]].
  - destruct (String.eqb_spec (ProviderInfo_GitHubOrg info) "") as [-> | Hne].
    + repeat split; congruence.
    + repeat split; congruence.
  - destruct (String.eqb_spec (ProviderInfo_GitHubHost info) "") as [-> | Hne].
    + repeat split; congruence.
    + repeat split; congruence.
  - destruct (String.eqb_spec (ProviderInfo_ResourcePrefix info) "") as [-> | Hne].
    + split; [split; [auto | intros [_ Hn]; exact Hn] | split; congruence].
    + split; [split; [congruence | intros [Hp _]; congruence] | split; congruence].
  - destruct (String.eqb_spec (ProviderInfo_TFProviderModuleVersion info) "") as [-> | Hne];
      reflexivity.
  - destruct (ProviderInfo_TFProviderLicense info) as [l|].
    + split; [intros ->; auto | intros [Hn | Hs]; congruence].
    + split; auto.
Qed.


End Facts.
End provider_facts.

(** ** Helper functions *)
Module helpers_facts.
Import helpers.

(** *** Splitting *)

Lemma Split_nonempty (s : string) (sep : ascii) : Split s sep <> [].
Proof.
  destruct s as [|c s]; cbn; [discriminate|].
  destruct (Ascii.eqb c sep); [discriminate|].
  destruct (Split s sep); discriminate.
Qed.

Lemma Split_length (s : string) (sep : ascii) :
  length (Split s sep) = S (countByte s sep).
Proof.
  induction s as [|c s IH]; cbn; [reflexivity|].
  destruct (Ascii.eqb c sep); cbn.
  - now rewrite IH.
  - pose proof (Split_nonempty s sep).
    destruct (Split s sep) as [|first others]; [contradiction|]. exact IH.
Qed.

Lemma concat_cons (sep x : string) (l : list string) :
  l <> [] -> String.concat sep (x :: l) = x +:+ sep +:+ String.concat sep l.
Proof. destruct l; [contradiction | reflexivity]. Qed.

Lemma Split_concat (s : string) (sep : ascii) :
  String.concat (String sep "") (Split s sep) = s.
Proof.
  induction s as [|c s IH]; cbn [Split]; [reflexivity|].
  pose proof (Split_nonempty s sep) as Hne.
  destruct (Ascii.eqb c sep) eqn:Hc.
  - apply Ascii.eqb_eq in Hc. subst c.
    rewrite concat_cons by assumption. rewrite IH. reflexivity.
  - destruct (Split s sep) as [|first others]; [contradiction|].
    destruct others as [|second others].
    + cbn in *. now rewrite IH.
    + rewrite concat_cons in IH by discriminate.
      rewrite concat_cons by discriminate. now rewrite <- IH.
Qed.

Lemma Split_free (s : string) (sep : ascii) :
  Forall (fun part => countByte part sep = 0) (Split s sep).
Proof.
  induction s as [|c s IH]; cbn.
  - constructor; [reflexivity | constructor].
  - destruct (Ascii.eqb c sep) eqn:Hc.
    + constructor; [reflexivity | exact IH].
    + pose proof (Split_nonempty s sep) as Hne.
      destruct (Split s sep) as [|first others]; [contradiction|].
      inversion IH as [|? ? Hfirst Hothers]; subst.
      constructor; [|exact Hothers]. cbn. now rewrite Hc.
Qed.

(** *** Strings *)

Lemma append_cons (c : ascii) (a b : string) : String c a +:+ b = String c (a +:+ b).
Proof. reflexivity. Qed.

Lemma append_nil_l (b : string) : "" +:+ b = b.
Proof. reflexivity. Qed.

Lemma length_append (a b : string) :
  String.length (a +:+ b) = String.length a + String.length b.
Proof.
  induction a as [|c a IH]; [reflexivity|].
  rewrite append_cons. cbn. now rewrite IH.
Qed.

Lemma append_inv_head (a b b' : string) : a +:+ b = a +:+ b' -> b = b'.
Proof.
  induction a as [|c a IH]; [trivial|].
  rewrite !append_cons. intros Heq. injection Heq as Heq. auto.
Qed.

Lemma append_inv_tail (a a' b : string) : a +:+ b = a' +:+ b -> a = a'.
Proof.
  revert a'. induction a as [|c a IH]; intros [|c' a'] Heq.
  - reflexivity.
  - apply (f_equal String.length) in Heq.
    rewrite append_nil_l, length_append in Heq. cbn in Heq. lia.
  - apply (f_equal String.length) in Heq.
    rewrite append_nil_l, length_append in Heq. cbn in Heq. lia.
  - rewrite !append_cons in Heq. injection Heq as -> Heq. f_equal. auto.
Qed.

Lemma append_separator_inj (sep : ascii) (a a' b b' : string) :
  countByte a sep = 0 -> countByte a' sep = 0 ->
  a +:+ String sep b = a' +:+ String sep b' -> a = a' /\ b = b'.
Proof.
  revert a'. induction a as [|c a IH]; intros [|c' a'] Ha Ha' Heq.
  - rewrite !append_nil_l in Heq. injection Heq as ->. auto.
  - rewrite append_nil_l, append_cons in Heq. injection Heq as <- _.
    cbn in Ha'. rewrite Ascii.eqb_refl in Ha'. discriminate.
  - rewrite append_nil_l, append_cons in Heq. injection Heq as -> _.
    cbn in Ha. rewrite Ascii.eqb_refl in Ha. discriminate.
  - rewrite !append_cons in Heq. injection Heq as -> Heq.
    cbn in Ha, Ha'. destruct (Ascii.eqb c' sep); [discriminate|].
    destruct (IH a' Ha Ha' Heq) as [-> ->]. auto.
Qed.

(** *** Tokens *)

(** X14. For package and module names without a colon, [MakeMember] and
    [MakeType] are injective: two tokens are equal exactly when package,
    module and member are. The token has two colons more than the
    member. *)
Theorem MakeMember_injective (pkg mod_ mem pkg' mod_' mem' : string) :
  countByte pkg ":" = 0 -> countByte mod_ ":" = 0 ->
  countByte pkg' ":" = 0 -> countByte mod_' ":" = 0 ->
  (MakeMember pkg mod_ mem = MakeMember pkg' mod_' mem' <->
   pkg = pkg' /\ mod_ = mod_' /\ mem = mem') /\
  (MakeType pkg mod_ mem = MakeType pkg' mod_' mem' <->
   pkg = pkg' /\ mod_ = mod_' /\ mem = mem') /\
  countByte (MakeMember pkg mod_ mem) ":" = 2 + countByte mem ":".
Proof.
  intros Hp Hm Hp' Hm'.
  assert (Hinj : MakeMember pkg mod_ mem = MakeMember pkg' mod_' mem' <->
                 pkg = pkg' /\ mod_ = mod_' /\ mem = mem').
  { split.
    - unfold MakeMember. intros Heq.
      change (pkg +:+ String ":" (mod_ +:+ String ":" mem)
              = pkg' +:+ String ":" (mod_' +:+ String ":" mem')) in Heq.
      destruct (append_separator_inj _ _ _ _ _ Hp Hp' Heq) as [-> Heq'].
      destruct (append_separator_inj _ _ _ _ _ Hm Hm' Heq') as [-> ->]. auto.
    - intros [-> [-> ->]]. reflexivity. }
  split; [exact Hinj|]. split; [exact Hinj|].
  unfold MakeMember.
  change (countByte (pkg +:+ String ":" (mod_ +:+ String ":" mem)) ":"
          = 2 + countByte mem ":").
  assert (Happ : forall a b, countByte (a +:+ b) ":" = countByte a ":" + countByte b ":").
  { intros a b. induction a as [|c a IH]; [reflexivity|].
    rewrite append_cons. cbn. rewrite IH. lia. }
  rewrite Happ. cbn [countByte]. rewrite Happ. cbn [countByte].
  rewrite Hp, Hm. cbn. lia.
Qed.

(** *** Property and environment readers *)

Import resource.

Lemma index_string (vars : PropertyMap) (prop : string) :
  (exists s, vars !! prop = Some (String s) /\ index vars prop = (String s, true)) \/
  ((forall s, vars !! prop <> Some (String s)) /\
   let '(val, ok) := index vars prop in ok && IsString val = false).
Proof.
  unfold index. destruct (vars !! prop) as [v|] eqn:Hv.
  - destruct v; try (right; split; [congruence | reflexivity]).
    left. eauto.
  - right. split; [congruence | reflexivity].
Qed.

Lemma ConfigStringValue_envs_first (environ : Environ) (pre post : list string)
    (env v : string) :
  Forall (fun e => environ !! e = None) pre -> environ !! env = Some v ->
  ConfigStringValue_envs environ (pre ++ env :: post) = v.
Proof.
  intros Hpre Henv. induction Hpre as [|e pre He Hpre IH]; cbn.
  - unfold LookupEnv. now rewrite Henv.
  - unfold LookupEnv at 1. rewrite He. exact IH.
Qed.

Lemma ConfigStringValue_envs_none (environ : Environ) (envs : list string) :
  Forall (fun e => environ !! e = None) envs ->
  ConfigStringValue_envs environ envs = "".
Proof.
  induction 1 as [|e envs He Henvs IH]; cbn; [reflexivity|].
  unfold LookupEnv. now rewrite He.
Qed.

(** X15. A string property wins over the environment: both
    [ConfigStringValue] and [StringValue] return it. Otherwise (no property,
    or one that is not a string, such as a secret) [StringValue] is empty
    and [ConfigStringValue] returns the value of the first variable of
    [envs] that is set, be it the empty string, and the empty string when
    none is set. Without variables to consult the two functions agree. *)
Theorem ConfigStringValue_precedence (environ : Environ) (vars : PropertyMap)
    (prop : string) (envs : list string) :
  (forall s, vars !! prop = Some (String s) ->
     ConfigStringValue environ vars prop envs = s /\ helpers.StringValue vars prop = s) /\
  ((forall s, vars !! prop <> Some (String s)) ->
     helpers.StringValue vars prop = "" /\
     (forall pre env post v,
        envs = (pre ++ env :: post)%list ->
        Forall (fun e => environ !! e = None) pre -> environ !! env = Some v ->
        ConfigStringValue environ vars prop envs = v) /\
     (Forall (fun e => environ !! e = None) envs ->
        ConfigStringValue environ vars prop envs = "")) /\
  ConfigStringValue environ vars prop [] = helpers.StringValue vars prop /\
  ConfigStringValue ∅ vars prop envs = helpers.StringValue vars prop.
Proof.
  unfold ConfigStringValue, helpers.StringValue.
  destruct (index_string vars prop) as [[s [Hs Hi]] | [Hno Hi]].
  - rewrite Hi. cbn. split; [|split; [|split]]; try reflexivity.
    + intros s' Hs'. rewrite Hs in Hs'. injection Hs' as <-. auto.
    + intros Hno. now destruct (Hno s).
  - destruct (index vars prop) as [val ok]. rewrite Hi.
    split; [|split; [|split]].
    + intros s Hs. now destruct (Hno s).
    + intros _. split; [reflexivity|]. split.
      * intros pre env post v -> Hpre Henv.
        now apply ConfigStringValue_envs_first.
      * apply ConfigStringValue_envs_none.
    + reflexivity.
    + apply ConfigStringValue_envs_none.
      apply Forall_forall. intros e _. apply lookup_empty.
Qed.

Lemma ConfigBoolValue_envs_true (environ : Environ) (envs : list string) :
  ConfigBoolValue_envs environ envs = true <->
  exists env, In env envs /\ environ !! env = Some "true".
Proof.
  induction envs as [|e envs IH]; cbn.
  - split; [discriminate | intros [env [[] _]]].
  - unfold LookupEnv. destruct (environ !! e) as [val|] eqn:He; cbn.
    + destruct (String.eqb val "true") eqn:Hval.
      * apply String.eqb_eq in Hval. subst val.
        split; [intros _; exists e; auto | reflexivity].
      * apply String.eqb_neq in Hval. rewrite IH.
        split; intros [env [Hin Henv]].
        -- exists env. auto.
        -- destruct Hin as [<- | Hin]; [congruence | exists env; auto].
    + rewrite IH. split; intros [env [Hin Henv]].
      * exists env. auto.
      * destruct Hin as [<- | Hin]; [congruence | exists env; auto].
Qed.

(** X16. [ConfigBoolValue] is true exactly when the property is the
    boolean true, or the property is not a boolean and one of the variables
    of [envs] is set to exactly "true". A boolean false property is not
    overridden by the environment, and no other spelling counts. *)
Theorem ConfigBoolValue_true_iff (environ : Environ) (vars : PropertyMap)
    (prop : string) (envs : list string) :
  ConfigBoolValue environ vars prop envs = true <->
  vars !! prop = Some (Bool true) \/
  ((forall b, vars !! prop <> Some (Bool b)) /\
   exists env, In env envs /\ environ !! env = Some "true").
Proof.
  unfold ConfigBoolValue, index.
  destruct (vars !! prop) as [v|] eqn:Hv.
  - destruct v as [|b| | | | | | |];
      try (cbn; rewrite ConfigBoolValue_envs_true;
           split; [intros Hex; right; split; [congruence | exact Hex]
                  | intros [Heq | [_ Hex]]; [congruence | exact Hex]]).
    cbn. split.
    + intros ->. left. reflexivity.
    + intros [Heq | [Hno _]]; [congruence | now destruct (Hno b)].
  - cbn. rewrite ConfigBoolValue_envs_true.
    split; [intros Hex; right; split; [congruence | exact Hex]
           | intros [Heq | [_ Hex]]; [congruence | exact Hex]].
Qed.

Section Arrays.
Context `{GoRuntime}.

Lemma ConfigArrayValue_elements_strings (vals ss : list string) :
  ConfigArrayValue_elements vals (String <$> ss) = Returned (vals ++ ss)%list.
Proof.
  revert vals. induction ss as [|s ss IH]; intros vals; cbn.
  - now rewrite app_nil_r.
  - rewrite IH. now rewrite <- app_assoc.
Qed.

Lemma ConfigArrayValue_elements_panics (vals pre : list string) (v : PropertyValue)
    (post : list PropertyValue) :
  IsString v = false ->
  ConfigArrayValue_elements vals ((String <$> pre) ++ v :: post)%list
  = Panicked (PanicError (typeAssertionError v)).
Proof.
  intros Hv. revert vals. induction pre as [|s pre IH]; intros vals; cbn.
  - destruct v; try reflexivity. discriminate.
  - apply IH.
Qed.

Lemma ConfigArrayValue_envs_first (environ : Environ) (vals pre post : list string)
    (env v : string) :
  Forall (fun e => environ !! e = None) pre -> environ !! env = Some v ->
  ConfigArrayValue_envs environ vals (pre ++ env :: post) = Split v ";".
Proof.
  intros Hpre Henv. induction Hpre as [|e pre He Hpre IH]; cbn.
  - unfold LookupEnv. now rewrite Henv.
  - unfold LookupEnv at 1. rewrite He. exact IH.
Qed.

Lemma ConfigArrayValue_envs_none (environ : Environ) (vals envs : list string) :
  Forall (fun e => environ !! e = None) envs ->
  ConfigArrayValue_envs environ vals envs = vals.
Proof.
  induction 1 as [|e envs He Henvs IH]; cbn; [reflexivity|].
  unfold LookupEnv. now rewrite He.
Qed.

(** X17. An array property of strings is returned as the list of its
    strings, whatever the environment holds; an array with an element that
    is not a string makes the function panic at the first such element.
    Otherwise the value of the first set variable of [envs] is split at
    every ";": joining the parts with ";" gives the value back, there is
    one part more than there are semicolons (so one empty part for an empty
    value), and no part contains a semicolon. With no variable set the
    result is empty. *)
Theorem ConfigArrayValue_behaviour (environ : Environ) (vars : PropertyMap)
    (prop : string) (envs : list string) :
  (forall ss : list string,
     vars !! prop = Some (Array (String <$> ss)) ->
     ConfigArrayValue environ vars prop envs = Returned ss) /\
  (forall (pre : list string) (v : PropertyValue) (post : list PropertyValue),
     vars !! prop = Some (Array ((String <$> pre) ++ v :: post)%list) ->
     IsString v = false ->
     ConfigArrayValue environ vars prop envs
     = Panicked (PanicError (typeAssertionError v))) /\
  ((forall elements, vars !! prop <> Some (Array elements)) ->
     (forall pre env post v,
        envs = (pre ++ env :: post)%list ->
        Forall (fun e => environ !! e = None) pre -> environ !! env = Some v ->
        exists parts,
          ConfigArrayValue environ vars prop envs = Returned parts /\
          String.concat ";" parts = v /\
          length parts = S (countByte v ";") /\
          Forall (fun part => countByte part ";" = 0) parts) /\
     (Forall (fun e => environ !! e = None) envs ->
        ConfigArrayValue environ vars prop envs = Returned [])).
Proof.
  unfold ConfigArrayValue, index. split; [|split].
  - intros ss ->. cbn. apply ConfigArrayValue_elements_strings.
  - intros pre v post -> Hv. cbn. now apply ConfigArrayValue_elements_panics.
  - intros Hno.
    assert (Hi : (let '(val, ok) :=
                    match vars !! prop with
                    | Some val => (val, true)
                    | None => (Null, false)
                    end in ok && IsArray val) = false).
    { destruct (vars !! prop) as [v|] eqn:Hv; [|reflexivity].
      destruct v; try reflexivity. now destruct (Hno elements). }
    destruct (match vars !! prop with
              | Some val => (val, true)
              | None => (Null, false)
              end) as [val ok].
    rewrite Hi. split.
    + intros pre env post v -> Hpre Henv.
      rewrite (ConfigArrayValue_envs_first environ [] pre post env v Hpre Henv).
      eexists. split; [reflexivity|]. split; [apply Split_concat|].
      split; [apply Split_length | apply Split_free].
    + intros Hnone. now rewrite ConfigArrayValue_envs_none.
Qed.
End Arrays.

(** *** Module versions *)

Section Versions.
Context `{Semver}.

Lemma formatDecimal_parse (n : N) :
  option_map N.of_uint (DecimalString.NilEmpty.uint_of_string (formatDecimal n)) = Some n.
Proof.
  unfold formatDecimal. rewrite DecimalString.NilEmpty.usu. cbn.
  now rewrite DecimalN.Unsigned.of_to.
Qed.

(** X18. [GetModuleMajorVersion] panics with the parser's error when the
    version does not parse. Otherwise it returns the empty string exactly
    when the major number is at most 1, and "v" followed by the decimal
    digits of the major number when it is greater; it never returns "v0" or
    "v1". *)
Theorem GetModuleMajorVersion_behaviour (version : string) :
  (forall sver e, ParseTolerant version = (sver, Some e) ->
     GetModuleMajorVersion version = Panicked (PanicError e)) /\
  (forall sver, ParseTolerant version = (sver, None) ->
     exists s, GetModuleMajorVersion version = Returned s /\
       (s = "" <-> (Major sver <= 1)%N) /\
       ((1 < Major sver)%N ->
          exists digits, s = String.String "v" digits /\
            option_map N.of_uint (DecimalString.NilEmpty.uint_of_string digits)
            = Some (Major sver)) /\
       s <> "v0" /\ s <> "v1").
Proof.
  unfold GetModuleMajorVersion. split.
  - intros sver e ->. reflexivity.
  - intros sver ->. eexists. split; [reflexivity|].
    destruct (N.ltb_spec 1 (Major sver)) as [Hlt|Hle].
    + assert (Hd : "v" +:+ formatDecimal (Major sver)
                   = String.String "v" (formatDecimal (Major sver))) by reflexivity.
      rewrite Hd. split; [|split; [|split]].
      * split; [discriminate | lia].
      * intros _. eexists. split; [reflexivity | apply formatDecimal_parse].
      * intros Heq. injection Heq as Heq.
        pose proof (formatDecimal_parse (Major sver)) as Hp. rewrite Heq in Hp.
        cbn in Hp. injection Hp as Hp. lia.
      * intros Heq. injection Heq as Heq.
        pose proof (formatDecimal_parse (Major sver)) as Hp. rewrite Heq in Hp.
        cbn in Hp. injection Hp as Hp. lia.
    + split; [|split; [|split]]; try discriminate.
      * split; [intros _; exact Hle | reflexivity].
      * lia.
Qed.
End Versions.

(** *** Identity-field errors *)

(** X19. [Is] holds between an identity-field error and a target exactly
    when the target is an identity-field error with the same message,
    provider name and repository URL. For the missing-property errors of
    two delegates this is the case exactly when field, provider name and
    URL coincide. *)
Theorem delegateIDFieldError_Is_iff (msg providerName repoURL : string) :
  (forall target : error,
     delegateIDFieldError_Is msg providerName repoURL target = true <->
     target = delegateIDFieldError msg providerName repoURL) /\
  (forall field field' providerName' repoURL' : string,
     delegateIDFieldError_Is
       ("Could not find required property '" +:+ field +:+ "' in state")
       providerName repoURL
       (tfbridge.missing_property field' providerName' repoURL') = true <->
     field = field' /\ providerName = providerName' /\ repoURL = repoURL').
Proof.
  assert (His : forall m p r target,
     delegateIDFieldError_Is m p r target = true <->
     target = delegateIDFieldError m p r).
  { intros m p r [m' p' r'|m']; cbn.
    - rewrite !andb_true_iff, !String.eqb_eq. split.
      + intros [[-> ->] ->]. reflexivity.
      + intros Heq. injection Heq as -> -> ->. auto.
    - split; discriminate. }
  split; [apply His|].
  intros field field' providerName' repoURL'. rewrite His.
  unfold tfbridge.missing_property. split.
  - intros Heq. injection Heq as Hmsg -> ->.
    apply append_inv_head in Hmsg. apply append_inv_tail in Hmsg. auto.
  - intros [-> [-> ->]]. reflexivity.
Qed.

End helpers_facts.

(** ** Standard tokens and error texts *)
Module standardtokens_facts.
Import standardtokens.

Section Facts.
Context `{Tokens}.

Lemma makeModule_returned (pkg mod_ member : string) :
  is_returned (makeModule pkg mod_ member) = true ->
  IsQName pkg = true /\
  exists first rest,
    member = String first rest /\
    IsQName (mod_ +:+ "/" +:+ lowerFirst first +:+ rest) = true.
Proof.
  unfold makeModule. destruct member as [|first rest]; [discriminate|].
  destruct (IsQName pkg); [|discriminate]. cbn.
  destruct (NewPackageToken pkg) as [pkgT|]; [|discriminate].
  destruct (IsQName _) eqn:Hm; [|discriminate]. cbn.
  intros _. split; [reflexivity|]. eauto.
Qed.

(** X22. The checks of the token makers and their order. [makeModule]
    reads the first byte of the member before anything else and panics on
    an empty member. [MakeResource] and [MakeDataSource] test the name
    first: an invalid name fails with the name's message whatever the
    package and module are; a valid, non-empty name with an invalid package
    fails with the package's message. Whenever one of them returns, the
    name and the package were valid, the name was not empty, and the module
    extended by the name with its first byte lowered was valid. *)
Theorem token_makers_checks (pkg mod_ name : string) :
  makeModule pkg mod_ "" = Panicked indexOutOfRange /\
  (IsName name = false ->
   MakeResource pkg mod_ name
     = Panicked (AssertionFailed ("invalid resource name: '" +:+ name +:+ "'")) /\
   MakeDataSource pkg mod_ name
     = Panicked (AssertionFailed ("invalid datasource name: '" +:+ name +:+ "'"))) /\
  (IsName name = true -> name <> "" -> IsQName pkg = false ->
   MakeResource pkg mod_ name
     = Panicked (AssertionFailed ("invalid pkg name: '" +:+ pkg +:+ "'")) /\
   MakeDataSource pkg mod_ name
     = Panicked (AssertionFailed ("invalid pkg name: '" +:+ pkg +:+ "'"))) /\
  (is_returned (MakeResource pkg mod_ name) = true \/
   is_returned (MakeDataSource pkg mod_ name) = true ->
   IsName name = true /\ IsQName pkg = true /\
   exists first rest,
     name = String first rest /\
     IsQName (mod_ +:+ "/" +:+ lowerFirst first +:+ rest) = true).
Proof.
  split; [reflexivity|]. split; [|split].
  - intros Hn. unfold MakeResource, MakeDataSource. now rewrite Hn.
  - intros Hn Hne Hp. unfold MakeResource, MakeDataSource, makeModule.
    rewrite Hn, Hp. destruct name; [contradiction|]. auto.
  - unfold MakeResource, MakeDataSource.
    destruct (IsName name); cbn; [|intros [Hr | Hr]; discriminate].
    intros Hr. split; [reflexivity|]. apply makeModule_returned.
    destruct (makeModule pkg mod_ name); [reflexivity|].
    destruct Hr; discriminate.
Qed.
End Facts.
End standardtokens_facts.

Module error_text_facts.
Import tfbridge.

Lemma HasPrefix_append (b c : string) : HasPrefix (b +:+ c) b = true.
Proof.
  induction b as [|x b IH]; [now destruct c|].
  rewrite helpers_facts.append_cons. cbn. now rewrite Ascii.eqb_refl.
Qed.

Lemma Contains_prefix (s b : string) : HasPrefix s b = true -> Contains s b = true.
Proof. intros Hp. destruct s; cbn in *; now rewrite Hp. Qed.

Lemma Contains_append (a b c : string) : Contains (a +:+ b +:+ c) b = true.
Proof.
  induction a as [|x a IH].
  - rewrite helpers_facts.append_nil_l. apply Contains_prefix. apply HasPrefix_append.
  - rewrite helpers_facts.append_cons. cbn [Contains]. rewrite IH. apply orb_true_r.
Qed.

Lemma append_nil_r (b : string) : b +:+ "" = b.
Proof.
  induction b as [|y b IH]; [reflexivity|]. now rewrite helpers_facts.append_cons, IH.
Qed.

Lemma append_assoc (x y z : string) : (x +:+ y) +:+ z = x +:+ y +:+ z.
Proof.
  induction x as [|c x IH]; [reflexivity|]. now rewrite !helpers_facts.append_cons, IH.
Qed.

Lemma Contains_append_r (a b : string) : Contains (a +:+ b) b = true.
Proof.
  induction a as [|x a IH].
  - rewrite helpers_facts.append_nil_l. apply Contains_prefix.
    rewrite <- (append_nil_r b) at 1. apply HasPrefix_append.
  - rewrite helpers_facts.append_cons. cbn [Contains]. rewrite IH. apply orb_true_r.
Qed.

Section Facts.
Context `{External}.

(** X21. The text of every error that the function returned by
    [DelegateIDField] returns contains the field name, the provider name
    and the repository URL, and ends with the report line built from the
    provider name and the URL. *)
Theorem DelegateIDField_error_text (field providerName repoURL : string)
    (ctx : context_Context) (state : resource.PropertyMap)
    (log : list LogEntry) (id : string) (e : error) :
  DelegateIDField field providerName repoURL ctx state = (log, Returned (id, Some e)) ->
  Contains (Error e) field = true /\
  Contains (Error e) providerName = true /\
  Contains (Error e) repoURL = true /\
  exists msg, Error e = msg +:+ ". This is an error in " +:+ providerName
                        +:+ " resource provider, please report at " +:+ repoURL.
Proof.
  intros Hd.
  assert (Hshape : exists pre post,
            e = delegateIDFieldError (pre +:+ field +:+ post) providerName repoURL).
  { unfold DelegateIDField in Hd.
    destruct (state !! field) as [v|].
    - destruct (negb _); [discriminate|].
      destruct (_ || _).
      + destruct (GetLogger ctx); [|discriminate]. cbn in Hd.
        destruct (negb _); [|discriminate].
        injection Hd as _ _ <-. eauto.
      + destruct (negb _); [|discriminate].
        injection Hd as _ _ <-. eauto.
    - injection Hd as _ _ <-. eauto. }
  destruct Hshape as [pre [post ->]]. cbn [Error].
  split; [|split; [|split]].
  - rewrite !append_assoc. apply Contains_append.
  - rewrite <- (append_assoc _ ". This is an error in "). apply Contains_append.
  - rewrite <- !append_assoc. apply Contains_append_r.
  - eexists. reflexivity.
Qed.
End Facts.
End error_text_facts.

(** ** The theorems at the sample instances *)
Module sample_facts.
Import tfbridge snapshot metadata helpers standardtokens samples.

(** A serialized element with both a schema and resource attributes does
    not survive unmarshalling and marshalling. *)
Lemma remarshal_identity_iff_witness :
  MarshalSchema (MarshallableSchema_Unmarshal mixedSchema) <> mixedSchema.
Proof.
  apply (proj2 (proj2 snapshot_facts.remarshal_identity_iff)).
  intros Heq. apply (f_equal (fun m => m !! "name")) in Heq.
  rewrite lookup_singleton_eq, lookup_empty in Heq. discriminate.
Defined.

Lemma MarshallableDefaultInfo_round_trip_witness :
  tfbridge.Config sampleDefault = "region" /\
  forall d, MarshallableDefaultInfo_Unmarshal (MarshalDefaultInfo (Some sampleDefault)) = Some d ->
    tfbridge.Config d = "" /\ From d = None.
Proof.
  split; [reflexivity|]. intros d Hd.
  destruct (proj2 (proj2 (metadata_facts.MarshallableDefaultInfo_round_trip
                            (H := sampleExternal)
                            (MarshalDefaultInfo (Some sampleDefault)))) d Hd)
    as [Hc [Hf _]].
  auto.
Defined.




Lemma MarshalProviderInfo_panics_witness :
  MarshalProviderInfo (Some (sampleProviderInfo (Some brokenShimProvider)
                               {["aws_bucket" := None]}))
  = Panicked nilDereference /\
  MarshalProviderInfo (Some (sampleProviderInfo (Some brokenShimProvider) ∅))
  = Panicked (PanicError (foreignError "duplicate data source")).
Proof.
  split.
  - apply (proj1 (proj2 (provider_facts.MarshalProviderInfo_panics
                           (H := sampleExternal) (H0 := sampleDeclared)))).
    left. exists "aws_bucket". apply lookup_singleton_eq.
  - apply (proj1 (proj2 (proj2 (provider_facts.MarshalProviderInfo_panics
                                  (H := sampleExternal) (H0 := sampleDeclared))))).
    + intros k v Hk. cbn in Hk. rewrite lookup_empty in Hk. discriminate.
    + intros k v Hk. cbn in Hk. rewrite lookup_empty in Hk. discriminate.
    + reflexivity.
Defined.

Lemma provider_getters_defaults_witness :
  GetGitHubHost (sampleProviderInfo None ∅) = "example.com" /\
  GetResourcePrefix (sampleProviderInfo None ∅) = "awsx".
Proof.
  destruct (provider_facts.provider_getters_defaults (H := sampleExternal)
              (H0 := sampleDeclared) (sampleProviderInfo None ∅))
    as [_ [[_ [Hhost _]] [[_ [Hpre _]] _]]].
  split; [apply Hhost | apply Hpre]; discriminate.
Defined.

Lemma MakeMember_injective_witness :
  MakeMember "aws" "s3/bucket" "Bucket" = "aws:s3/bucket:Bucket" /\
  countByte (MakeMember "aws" "s3/bucket" "Bucket") ":" = 2.
Proof.
  split; [reflexivity|].
  apply (proj2 (proj2 (helpers_facts.MakeMember_injective
                         "aws" "s3/bucket" "Bucket" "aws" "s3/bucket" "Bucket"
                         eq_refl eq_refl eq_refl eq_refl))).
Defined.

Lemma ConfigStringValue_precedence_witness :
  ConfigStringValue {["REGION" := ""; "AWS_REGION" := "eu"]}
    {["region" := resource.Secret (resource.String "us")]} "region"
    ["AWS_DEFAULT_REGION"; "REGION"; "AWS_REGION"] = "".
Proof.
  assert (Hno : forall s,
            ({["region" := resource.Secret (resource.String "us")]} : resource.PropertyMap)
              !! "region" <> Some (resource.String s)).
  { intros s Hs. rewrite lookup_singleton_eq in Hs. discriminate. }
  apply (proj1 (proj2 (proj1 (proj2
           (helpers_facts.ConfigStringValue_precedence
              {["REGION" := ""; "AWS_REGION" := "eu"]}
              {["region" := resource.Secret (resource.String "us")]} "region"
              ["AWS_DEFAULT_REGION"; "REGION"; "AWS_REGION"])) Hno))
           ["AWS_DEFAULT_REGION"] "REGION" ["AWS_REGION"] "").
  - reflexivity.
  - repeat constructor.
  - reflexivity.
Defined.

Lemma ConfigArrayValue_behaviour_witness :
  (exists parts,
     ConfigArrayValue (H := sampleRuntime) {["ZONES" := "a;;b"]} ∅ "zones" ["ZONES"]
       = Returned parts /\
     String.concat ";" parts = "a;;b" /\ length parts = 3) /\
  ConfigArrayValue (H := sampleRuntime) {["ZONES" := "a;b"]}
    {["zones" := resource.Array [resource.String "c"; resource.Bool true]]}
    "zones" ["ZONES"]
    = Panicked (PanicError (foreignError
        "interface conversion: interface {} is bool, not string")).
Proof.
  split.
  - assert (Hno : forall elements,
              (∅ : resource.PropertyMap) !! "zones" <> Some (resource.Array elements)).
    { intros elements Hs. rewrite lookup_empty in Hs. discriminate. }
    assert (Hzones : ({["ZONES" := "a;;b"]} : Environ) !! "ZONES" = Some "a;;b")
      by reflexivity.
    destruct (proj1 (proj2 (proj2
                (helpers_facts.ConfigArrayValue_behaviour (H := sampleRuntime)
                   {["ZONES" := "a;;b"]} ∅ "zones" ["ZONES"])) Hno)
                [] "ZONES" [] "a;;b" eq_refl (List.Forall_nil _) Hzones)
      as [parts [Hparts [Hjoin [Hlen _]]]].
    exists parts. auto.
  - apply (proj1 (proj2 (helpers_facts.ConfigArrayValue_behaviour (H := sampleRuntime)
                           {["ZONES" := "a;b"]}
                           {["zones" := resource.Array
                                          [resource.String "c"; resource.Bool true]]}
                           "zones" ["ZONES"]))
             ["c"] (resource.Bool true) []).
    + apply lookup_singleton_eq.
    + reflexivity.
Defined.

Lemma GetModuleMajorVersion_behaviour_witness :
  (exists s digits,
     GetModuleMajorVersion (H := sampleSemver) "12" = Returned s /\
     s = String.String "v" digits /\
     option_map N.of_uint (DecimalString.NilEmpty.uint_of_string digits) = Some 12%N) /\
  GetModuleMajorVersion (H := sampleSemver) "x"
    = Panicked (PanicError (foreignError "Invalid character(s) found in major number")).
Proof.
  split.
  - assert (Hparse : ParseTolerant (Semver := sampleSemver) "12" = (12%N, None))
      by reflexivity.
    destruct (proj2 (helpers_facts.GetModuleMajorVersion_behaviour
                       (H := sampleSemver) "12") 12%N Hparse)
      as [s [Hs [_ [Hdigits _]]]].
    destruct (Hdigits eq_refl) as [digits [Hv Hd]].
    exists s, digits. auto.
  - apply (proj1 (helpers_facts.GetModuleMajorVersion_behaviour
                    (H := sampleSemver) "x") 0%N).
    reflexivity.
Defined.

Lemma toPropertyKey_recoverable_witness :
  naming.Singularize (Inflector := naming.regularInflector)
    (naming.toPropertyKey (H := naming.regularInflector) "instance"
       (tftypes.List tftypes.String)) = "instance".
Proof.
  apply (proj1 (proj2 (naming_more_facts.toPropertyKey_recoverable
                         (H := naming.regularInflector)
                         "instance" "instance" (tftypes.List tftypes.String)))).
  discriminate.
Defined.

Lemma token_makers_checks_witness :
  MakeResource (H := sampleTokens) "aws" "s3" "Bucket" = Returned "aws:s3/bucket:Bucket" /\
  MakeResource (H := sampleTokens) "a:b" "s3" "Bucket/x"
    = Panicked (AssertionFailed "invalid resource name: 'Bucket/x'") /\
  MakeDataSource (H := sampleTokens) "a:b" "s3" "getBucket"
    = Panicked (AssertionFailed "invalid pkg name: 'a:b'").
Proof.
  split; [reflexivity|]. split.
  - apply (proj1 (proj2 (standardtokens_facts.token_makers_checks (H := sampleTokens)
                           "a:b" "s3" "Bucket/x"))).
    reflexivity.
  - apply (proj1 (proj2 (proj2 (standardtokens_facts.token_makers_checks
                                  (H := sampleTokens) "a:b" "s3" "getBucket")))).
    + reflexivity.
    + discriminate.
    + reflexivity.
Defined.

Lemma DelegateIDField_error_text_witness :
  Error (missing_property "id" "aws" "https://example.com")
  = "Could not find required property 'id' in state. This is an error in aws resource provider, please report at https://example.com"
  /\ Contains (Error (missing_property "id" "aws" "https://example.com")) "aws" = true.
Proof.
  split; [reflexivity|].
  apply (error_text_facts.DelegateIDField_error_text (H := sampleExternal)
           "id" "aws" "https://example.com" sampleContext ∅ [] "").
  reflexivity.
Defined.

End sample_facts.
